(** * Habit tracker: the store, its persistence and its display order

    A shallow embedding of [script.js].  The script keeps three pieces
    of state: the module-level variables [habits] and [totalPoints], the
    [localStorage] entry ['habitsData'], and a handful of DOM nodes it
    writes to.  Every function of the script that touches the habit
    list is transcribed as a function on a record holding that state;
    what the script reads from its surroundings at the time of a call
    (the clock, the answer to a [confirm] dialog) is an argument of the
    transcribed function.

    Three services of the browser are used but not implemented by the
    script: [JSON.stringify], [JSON.parse] and
    [String.prototype.localeCompare].  They are the fields of the class
    [Host]; the development is parametric in it, and a concrete host
    ([Browser.host]) is supplied to run the script on examples.

    Two things the browser may do are not modelled: [setItem] is taken
    to succeed (no storage quota), and the two readings of the clock
    made within one call of [checkDailyReset] (its own and that of
    [saveData]) are taken to give the same date. *)

From Stdlib Require Import ZArith NArith List String Ascii Bool Lia.
From Stdlib Require Import Permutation Sorted.
From Stdlib Require Import Floats Uint63.
Import ListNotations.

Open Scope Z_scope.
Open Scope string_scope.

(** ** Strings

    A JavaScript string is a sequence of 16-bit code units.  The model
    keeps the code units below 256 (the Latin-1 block), one [ascii] per
    unit; within that block [trim] and [toLowerCase] are as follows. *)

Module Str.

Definition code (c : ascii) : N := N_of_ascii c.

(** White space and line terminators of ECMAScript below 256:
    TAB, LF, VT, FF, CR, SP and NBSP. *)
Definition isWhiteSpace (c : ascii) : bool :=
  let n := code c in
  ((9 <=? n) && (n <=? 13) || (n =? 32) || (n =? 160))%N.

Fixpoint trimStart (s : string) : string :=
  match s with
  | EmptyString => EmptyString
  | String c r => if isWhiteSpace c then trimStart r else s
  end.

Fixpoint trimEnd (s : string) : string :=
  match s with
  | EmptyString => EmptyString
  | String c r =>
      match trimEnd r with
      | EmptyString => if isWhiteSpace c then EmptyString else String c EmptyString
      | r' => String c r'
      end
  end.

Definition trim (s : string) : string := trimEnd (trimStart s).

(** Upper-case letters below 256: A-Z, and U+00C0-U+00DE except the
    multiplication sign U+00D7; each is 32 below its lower-case form. *)
Definition isUpper (c : ascii) : bool :=
  let n := code c in
  ((65 <=? n) && (n <=? 90) || (192 <=? n) && (n <=? 222) && negb (n =? 215))%N.

Definition lowerChar (c : ascii) : ascii :=
  if isUpper c then ascii_of_N (code c + 32) else c.

Fixpoint toLowerCase (s : string) : string :=
  match s with
  | EmptyString => EmptyString
  | String c r => String (lowerChar c) (toLowerCase r)
  end.

End Str.

(** ** Data *)

(** A habit object [{ id, name, time, completed }]. *)
Record Habit : Type := mkHabit {
  id : Z;
  name : string;
  time : string;
  completed : bool
}.

Definition setCompleted (b : bool) (h : Habit) : Habit :=
  mkHabit (id h) (name h) (time h) b.

#[local] Set Warnings "-register-all".

(** JSON values, with integer numbers: the only numbers the script
    stores are [Date.now()] readings, and a stored text with a number
    that is not an integer is outside the model.  An object keeps its
    properties in insertion order. *)
Inductive json : Type :=
| JNull
| JBool (b : bool)
| JNum (z : Z)
| JStr (s : string)
| JArr (items : list json)
| JObj (props : list (string * json)).

(** The browser services the script calls.  [JSON_parse] is [None]
    where [JSON.parse] throws [SyntaxError]; [localeCompare a b] is the
    number [a.localeCompare(b)]. *)
Class Host : Type := {
  JSON_stringify : json -> string;
  JSON_parse : string -> option json;
  localeCompare : string -> string -> Z
}.

(** How a call ends.  [Throws e]: the exception [e] leaves the function
    before it has assigned anything, so the state is the one before the
    call.  [IllTyped]: the call has stored in [habits] a value that is
    not an array of objects of the shape [addHabit] gives them (a
    number [id], strings [name] and [time], a boolean [completed], in
    this order); the script never writes such a value, and the typed
    model does not follow the execution further. *)
Inductive Exn : Type := SyntaxError | TypeError.

Inductive Outcome (A : Type) : Type :=
| Ok (a : A)
| Throws (e : Exn)
| IllTyped.

Arguments Ok {A} a.
Arguments Throws {A} e.
Arguments IllTyped {A}.

Definition bind {A B : Type} (m : Outcome A) (k : A -> Outcome B) : Outcome B :=
  match m with
  | Ok a => k a
  | Throws e => Throws e
  | IllTyped => IllTyped
  end.

Notation "x <- m ;; k" := (bind m (fun x => k))
  (at level 61, m at next level, right associativity).

(** ** State

    [habits] and [totalPoints] are the script's variables;
    [localStorage] is the entry ['habitsData'] ([None]: [getItem]
    returns [null]); the remaining fields are the DOM nodes of the same
    names: the [value] of the two inputs, the percentage written to
    [progressBar] and [progressText], the cards appended to
    [habitsList] in order, whether [emptyState] is displayed, and the
    messages passed to [alert] so far. *)
Record State : Type := mkState {
  habits : list Habit;
  totalPoints : Z;
  localStorage : option string;
  habitNameInput : string;
  habitTimeInput : string;
  progressText : Z;
  habitsList : list Habit;
  emptyState : bool;
  alerts : list string
}.

Definition POINTS_PER_HABIT : Z := 10.

Definition set_habits (hs : list Habit) (s : State) : State :=
  mkState hs (totalPoints s) (localStorage s) (habitNameInput s) (habitTimeInput s)
          (progressText s) (habitsList s) (emptyState s) (alerts s).

Definition set_totalPoints (p : Z) (s : State) : State :=
  mkState (habits s) p (localStorage s) (habitNameInput s) (habitTimeInput s)
          (progressText s) (habitsList s) (emptyState s) (alerts s).

Definition setItem (txt : string) (s : State) : State :=
  mkState (habits s) (totalPoints s) (Some txt) (habitNameInput s) (habitTimeInput s)
          (progressText s) (habitsList s) (emptyState s) (alerts s).

Definition set_inputs (n t : string) (s : State) : State :=
  mkState (habits s) (totalPoints s) (localStorage s) n t
          (progressText s) (habitsList s) (emptyState s) (alerts s).

Definition set_progress (p : Z) (s : State) : State :=
  mkState (habits s) (totalPoints s) (localStorage s) (habitNameInput s) (habitTimeInput s)
          p (habitsList s) (emptyState s) (alerts s).

Definition set_rendered (cards : list Habit) (empty : bool) (s : State) : State :=
  mkState (habits s) (totalPoints s) (localStorage s) (habitNameInput s) (habitTimeInput s)
          (progressText s) cards empty (alerts s).

Definition alert (msg : string) (s : State) : State :=
  mkState (habits s) (totalPoints s) (localStorage s) (habitNameInput s) (habitTimeInput s)
          (progressText s) (habitsList s) (emptyState s) (alerts s ++ [msg]).

(** A freshly loaded page: the script's two variables have their
    initial values and nothing has been alerted, whatever the storage
    entry and the page hold. *)
Definition isInitial (s : State) : Prop :=
  habits s = [] /\ totalPoints s = 0 /\ alerts s = [].

(** ** Reading JSON values the way the script does *)

(** The value of an own property ([JSON.parse] returns objects in
    which no property name is repeated). *)
Fixpoint lookupProp (k : string) (props : list (string * json)) : option json :=
  match props with
  | [] => None
  | (k', v) :: rest => if k' =? k then Some v else lookupProp k rest
  end.

(** [v.k] for a property name [k] that no prototype defines
    ([habits], [lastVisitDate]): [TypeError] on [null], the own
    property of an object, [undefined] ([None]) in every other case. *)
Definition getProp (v : json) (k : string) : Outcome (option json) :=
  match v with
  | JNull => Throws TypeError
  | JObj props => Ok (lookupProp k props)
  | _ => Ok None
  end.

(** Truthiness of a property value; [None] is [undefined]. *)
Definition truthy (o : option json) : bool :=
  match o with
  | None | Some JNull => false
  | Some (JBool b) => b
  | Some (JNum z) => negb (z =? 0)%Z
  | Some (JStr s) => negb (s =? "")
  | Some (JArr _) | Some (JObj _) => true
  end.

(** [lastDate === today] for the string [today]. *)
Definition strictEqString (o : option json) (t : string) : bool :=
  match o with
  | Some (JStr d) => d =? t
  | _ => false
  end.

(** The object literal of [addHabit], as JSON. *)
Definition habitJson (h : Habit) : json :=
  JObj [("id", JNum (id h)); ("name", JStr (name h));
        ("time", JStr (time h)); ("completed", JBool (completed h))].

(** The object literal [data] of [saveData]. *)
Definition dataJson (lastVisitDate : string) (hs : list Habit) : json :=
  JObj [("lastVisitDate", JStr lastVisitDate); ("habits", JArr (map habitJson hs))].

(** A parsed value is read as a [Habit] when it has the shape
    [addHabit] gives its objects. *)
Definition asHabit (v : json) : option Habit :=
  match v with
  | JObj [(k1, JNum i); (k2, JStr n); (k3, JStr t); (k4, JBool c)] =>
      if (k1 =? "id") && (k2 =? "name") && (k3 =? "time") && (k4 =? "completed")
      then Some (mkHabit i n t c) else None
  | _ => None
  end.

Fixpoint asHabits (items : list json) : option (list Habit) :=
  match items with
  | [] => Some []
  | v :: rest =>
      match asHabit v, asHabits rest with
      | Some h, Some hs => Some (h :: hs)
      | _, _ => None
      end
  end.

(** ** Numbers

    [completedCount / habits.length * 100] is computed on binary64
    numbers and rounded by [Math.round] (to the nearest integer, a
    half going up).  [number] is the double of a count, [Math_round]
    the integer [Math.round] returns on a finite double; on a NaN or
    an infinity, which [Math.round] returns as it is and which the
    guarded call in [updateProgress] cannot produce, it is [0]. *)

Definition number (n : nat) : float :=
  PrimFloat.of_uint63 (Uint63.of_Z (Z.of_nat n)).

Definition Math_round (x : float) : Z :=
  match Prim2SF x with
  | S754_finite sign m e =>
      let mant := if sign then Z.neg m else Z.pos m in
      if (0 <=? e)%Z then mant * 2 ^ e
      else (2 * mant + 2 ^ (- e)) / 2 ^ (1 - e)
  | _ => 0
  end.

(** [habits.filter(h => h.completed).length] *)
Definition completedCount (hs : list Habit) : nat :=
  List.length (filter completed hs).

(** The percentage [updateProgress] writes to the progress bar and
    its label: [0] for an empty list, else the local [percentage]. *)
Definition percentage (hs : list Habit) : Z :=
  if (List.length hs =? 0)%nat then 0
  else Math_round (number (completedCount hs) / number (List.length hs) * number 100)%float.

(** ** [Array.prototype.sort]

    ECMAScript requires [sort] to be stable; for a comparator that is
    a consistent ordering the result is therefore determined, and it
    is the one a stable insertion sort computes: an element goes in
    front of the first later element it does not compare above. *)
Section Sort.
Context {A : Type} (cmp : A -> A -> Z).

Fixpoint insertSorted (x : A) (l : list A) : list A :=
  match l with
  | [] => [x]
  | y :: l' => if (cmp x y <=? 0)%Z then x :: l else y :: insertSorted x l'
  end.

Fixpoint sort (l : list A) : list A :=
  match l with
  | [] => []
  | x :: l' => insertSorted x (sort l')
  end.
End Sort.

(** ** The script *)

(** [habit.completed = !habit.completed] on the object
    [habits.find(h => h.id === id)] returned: the first element with
    that id is updated in place.  (Every habit object is created by
    [addHabit] or by [JSON.parse] and put into one array only, so no
    other element changes with it.) *)
Fixpoint flipFound (i : Z) (hs : list Habit) : list Habit :=
  match hs with
  | [] => []
  | h :: rest =>
      if (id h =? i)%Z then setCompleted (negb (completed h)) h :: rest
      else h :: flipFound i rest
  end.

Section Script.
Context {host : Host}.

(** The text of [totalPointsEl] repeats [totalPoints]; the highlight
    started with [setTimeout] changes nothing that is read again. *)
Definition calculatePoints (s : State) : State :=
  set_totalPoints (Z.of_nat (completedCount (habits s)) * POINTS_PER_HABIT) s.

Definition updateProgress (s : State) : State :=
  set_progress (percentage (habits s)) s.

Definition saveData (today : string) (s : State) : State :=
  let data := dataJson today (habits s) in
  updateProgress (calculatePoints (setItem (JSON_stringify data) s)).

Definition loadData (s : State) : Outcome State :=
  match localStorage s with
  | None => Ok s
  | Some storedData =>
      if storedData =? "" then Ok s
      else
        match JSON_parse storedData with
        | None => Throws SyntaxError
        | Some parsedData =>
            stored <- getProp parsedData "habits" ;;
            if truthy stored then
              match stored with
              | Some (JArr items) =>
                  match asHabits items with
                  | Some hs => Ok (calculatePoints (set_habits hs s))
                  | None => IllTyped
                  end
              | _ => IllTyped
              end
            else Ok (calculatePoints (set_habits [] s))
        end
  end.

Definition newDayMessage : string :=
  "It's a new day! Your habits have been reset.".

Definition checkDailyReset (today : string) (s : State) : Outcome State :=
  match localStorage s with
  | None => Ok s
  | Some storedData =>
      if storedData =? "" then Ok s
      else
        match JSON_parse storedData with
        | None => Throws SyntaxError
        | Some parsedData =>
            lastDate <- getProp parsedData "lastVisitDate" ;;
            if negb (strictEqString lastDate today) then
              let s1 := set_habits (map (setCompleted false) (habits s)) s in
              Ok (alert newDayMessage (saveData today s1))
            else Ok s
        end
  end.

(** What the call [checkDailyReset()] evaluates to.  The body has no
    [return] statement, on either branch: a call that ends normally
    evaluates to [undefined] ([None], as for a missing property in
    [getProp]). *)
Definition checkDailyReset_result (today : string) (s : State) : Outcome (option json) :=
  _ <- checkDailyReset today s ;; Ok None.

(** The comparator passed to [sort] in [renderHabits]. *)
Definition compareHabits (a b : Habit) : Z :=
  if Bool.eqb (completed a) (completed b) then localeCompare (time a) (time b)
  else if completed a then 1 else -1.

Definition sortedHabits (hs : list Habit) : list Habit :=
  sort compareHabits hs.

Definition renderHabits (s : State) : State :=
  if (List.length (habits s) =? 0)%nat then set_rendered [] true s
  else set_rendered (sortedHabits (habits s)) false s.

Definition emptyNameMessage : string := "Please enter a habit name.".
Definition duplicateMessage : string := "This habit already exists!".

(** [now] is [Date.now()], [today] is [new Date().toDateString()]. *)
Definition addHabit (now : Z) (today : string) (s : State) : State :=
  let name' := Str.trim (habitNameInput s) in
  let time' := habitTimeInput s in
  if name' =? "" then alert emptyNameMessage s
  else if existsb (fun h => Str.toLowerCase (name h) =? Str.toLowerCase name')
                  (habits s)
  then alert duplicateMessage s
  else
    let newHabit :=
      mkHabit now name' (if time' =? "" then "Anytime" else time') false in
    let s1 := set_habits (habits s ++ [newHabit]) s in
    set_inputs "" "" (renderHabits (saveData today s1)).

Definition toggleHabit (today : string) (i : Z) (s : State) : State :=
  match find (fun h => (id h =? i)%Z) (habits s) with
  | Some _ =>
      renderHabits (saveData today (set_habits (flipFound i (habits s)) s))
  | None => s
  end.

(** [confirmed] is the answer to the [confirm] dialog. *)
Definition deleteHabit (today : string) (confirmed : bool) (i : Z) (s : State) : State :=
  if confirmed then
    let s1 := set_habits (filter (fun h => negb (id h =? i)%Z) (habits s)) s in
    renderHabits (saveData today s1)
  else s.

(** The [DOMContentLoaded] handler.  [updateDateDisplay] writes the
    date and a greeting to two text nodes nothing else reads; it is
    left out. *)
Definition onDOMContentLoaded (today : string) (s : State) : Outcome State :=
  s1 <- loadData s ;;
  s2 <- checkDailyReset today s1 ;;
  Ok (updateProgress (renderHabits s2)).

End Script.

(** ** A concrete host

    To run the script on examples: a JSON printer and parser for the
    values of [json], and a collation.  The printer writes what
    [JSON.stringify] writes for these values.  The parser accepts the
    JSON grammar restricted to integer literals and to escapes of
    code units below 256 (any other text denotes no value of [json]
    and is refused); it reads back whatever the printer wrote
    ([parse_stringify] below).  The collation orders strings of
    printable ASCII characters the way the root collation of the
    browsers does: by their characters regardless of case first, the
    space before the punctuation, the punctuation before the digits
    and the digits before the letters, and between strings that
    differ in case only, lower case first at the first difference.
    The control characters, which the browsers ignore, and the
    characters above 127, which they place among the others, are
    placed by their code.  It is a consistent ordering
    ([collate_consistent]). *)
Module Browser.

Definition hexDigit (n : N) : ascii :=
  ascii_of_N (if (n <? 10)%N then 48 + n else 87 + n).

(** [JSON.stringify] of a string: quotes, with the escapes it uses. *)
Fixpoint escape (s : string) : string :=
  match s with
  | EmptyString => EmptyString
  | String c r =>
      let n := Str.code c in
      let r' := escape r in
      if (n =? 34)%N then String "\" (String "034" r')
      else if (n =? 92)%N then String "\" (String "\" r')
      else if (n =? 8)%N then String "\" (String "b" r')
      else if (n =? 9)%N then String "\" (String "t" r')
      else if (n =? 10)%N then String "\" (String "n" r')
      else if (n =? 12)%N then String "\" (String "f" r')
      else if (n =? 13)%N then String "\" (String "r" r')
      else if (n <? 32)%N then
        String "\" (String "u" (String "0" (String "0"
          (String (hexDigit (n / 16)) (String (hexDigit (n mod 16)) r')))))
      else String c r'
  end.

Definition quote (s : string) : string :=
  String "034" (escape s ++ String "034" EmptyString).

Fixpoint digitsOf (fuel : nat) (p : N) (acc : string) : string :=
  match fuel with
  | O => acc
  | S fuel' =>
      let acc' := String (ascii_of_N (48 + p mod 10)) acc in
      if (p / 10 =? 0)%N then acc' else digitsOf fuel' (p / 10) acc'
  end.

Definition decimal (z : Z) : string :=
  let p := Z.abs_N z in
  let d := digitsOf (S (N.to_nat (N.log2 p))) p EmptyString in
  if (z <? 0)%Z then String "-" d else d.

Fixpoint joinWith (sep : string) (parts : list string) : string :=
  match parts with
  | [] => EmptyString
  | p :: rest =>
      match rest with
      | [] => p
      | _ :: _ => p ++ sep ++ joinWith sep rest
      end
  end.

Fixpoint stringify (v : json) : string :=
  match v with
  | JNull => "null"
  | JBool true => "true"
  | JBool false => "false"
  | JNum z => decimal z
  | JStr s => quote s
  | JArr items => "[" ++ joinWith "," (map stringify items) ++ "]"
  | JObj props =>
      "{" ++ joinWith "," (map (fun kv => quote (fst kv) ++ ":" ++ stringify (snd kv)) props)
          ++ "}"
  end.

(** *** Parsing *)

Definition isJsonSpace (c : ascii) : bool :=
  let n := Str.code c in ((n =? 32) || (n =? 9) || (n =? 10) || (n =? 13))%N.

Fixpoint skipSpace (s : string) : string :=
  match s with
  | String c r => if isJsonSpace c then skipSpace r else s
  | EmptyString => s
  end.

Definition isDigit (c : ascii) : bool :=
  let n := Str.code c in ((48 <=? n) && (n <=? 57))%N.

Definition hexValue (c : ascii) : option N :=
  let n := Str.code c in
  if ((48 <=? n) && (n <=? 57))%N then Some (n - 48)%N
  else if ((97 <=? n) && (n <=? 102))%N then Some (n - 87)%N
  else if ((65 <=? n) && (n <=? 70))%N then Some (n - 55)%N
  else None.

(** After the opening quote: the characters up to the closing one. *)
Fixpoint stringBody (s : string) : option (string * string) :=
  match s with
  | EmptyString => None
  | String c r =>
      let n := Str.code c in
      if (n =? 34)%N then Some (EmptyString, r)
      else if (n <? 32)%N then None
      else if (n =? 92)%N then
        match r with
        | String e r1 =>
            let plain (d : N) :=
              match stringBody r1 with
              | Some (body, rest) => Some (String (ascii_of_N d) body, rest)
              | None => None
              end in
            let m := Str.code e in
            if (m =? 34)%N then plain 34%N
            else if (m =? 92)%N then plain 92%N
            else if (m =? 47)%N then plain 47%N
            else if (m =? 98)%N then plain 8%N
            else if (m =? 102)%N then plain 12%N
            else if (m =? 110)%N then plain 10%N
            else if (m =? 114)%N then plain 13%N
            else if (m =? 116)%N then plain 9%N
            else if (m =? 117)%N then
              match r1 with
              | String h1 (String h2 (String h3 (String h4 r2))) =>
                  match hexValue h1, hexValue h2, hexValue h3, hexValue h4 with
                  | Some 0%N, Some 0%N, Some a, Some b =>
                      match stringBody r2 with
                      | Some (body, rest) =>
                          Some (String (ascii_of_N (16 * a + b)) body, rest)
                      | None => None
                      end
                  | _, _, _, _ => None
                  end
              | _ => None
              end
            else None
        | EmptyString => None
        end
      else
        match stringBody r with
        | Some (body, rest) => Some (String c body, rest)
        | None => None
        end
  end.

Fixpoint digitRun (s : string) (acc : N) : N * string :=
  match s with
  | String c r => if isDigit c then digitRun r (10 * acc + (Str.code c - 48))%N else (acc, s)
  | EmptyString => (acc, s)
  end.

(** An integer literal: [0], or a non-zero digit and more digits. *)
Definition naturalLit (s : string) : option (N * string) :=
  match s with
  | String c r =>
      if isDigit c then
        let '(n, rest) := if (Str.code c =? 48)%N then (0%N, r) else digitRun s 0%N in
        match rest with
        | String d _ =>
            let m := Str.code d in
            if isDigit d || (m =? 46)%N || (m =? 101)%N || (m =? 69)%N then None
            else Some (n, rest)
        | EmptyString => Some (n, rest)
        end
      else None
  | EmptyString => None
  end.

Fixpoint dropPrefix (word s : string) : option string :=
  match word with
  | EmptyString => Some s
  | String c word' =>
      match s with
      | String d r => if Ascii.eqb c d then dropPrefix word' r else None
      | EmptyString => None
      end
  end.

Definition expect (word : string) (v : json) (s : string) : option (json * string) :=
  match dropPrefix word s with
  | Some rest => Some (v, rest)
  | None => None
  end.

(** [elem], then [close] or a comma and more: the rest of an array or
    of an object after its first position. *)
Fixpoint sequence {A : Type} (elem : string -> option (A * string)) (close : N)
         (fuel : nat) (s : string) : option (list A * string) :=
  match fuel with
  | O => None
  | S fuel' =>
      match elem (skipSpace s) with
      | Some (x, rest) =>
          match skipSpace rest with
          | String c r =>
              if (Str.code c =? close)%N then Some ([x], r)
              else if (Str.code c =? 44)%N then
                match sequence elem close fuel' r with
                | Some (xs, rest') => Some (x :: xs, rest')
                | None => None
                end
              else None
          | EmptyString => None
          end
      | None => None
      end
  end.

(** A later duplicate of a key replaces the value of the earlier one. *)
Fixpoint setProp (k : string) (v : json) (props : list (string * json)) :=
  match props with
  | [] => [(k, v)]
  | (k', v') :: rest => if k' =? k then (k', v) :: rest else (k', v') :: setProp k v rest
  end.

Definition member (value : string -> option (json * string)) (s : string)
  : option ((string * json) * string) :=
  match s with
  | String c r =>
      if (Str.code c =? 34)%N then
        match stringBody r with
        | Some (k, rest) =>
            match skipSpace rest with
            | String colon rest' =>
                if (Str.code colon =? 58)%N then
                  match value (skipSpace rest') with
                  | Some (v, rest'') => Some ((k, v), rest'')
                  | None => None
                  end
                else None
            | EmptyString => None
            end
        | None => None
        end
      else None
  | EmptyString => None
  end.

Fixpoint value (fuel : nat) (s : string) : option (json * string) :=
  match fuel with
  | O => None
  | S fuel' =>
      match s with
      | EmptyString => None
      | String c r =>
          let n := Str.code c in
          if (n =? 110)%N then expect "null" JNull s
          else if (n =? 116)%N then expect "true" (JBool true) s
          else if (n =? 102)%N then expect "false" (JBool false) s
          else if (n =? 34)%N then
            match stringBody r with
            | Some (str, rest) => Some (JStr str, rest)
            | None => None
            end
          else if (n =? 45)%N then
            match naturalLit r with
            | Some (m, rest) => Some (JNum (- Z.of_N m), rest)
            | None => None
            end
          else if isDigit c then
            match naturalLit s with
            | Some (m, rest) => Some (JNum (Z.of_N m), rest)
            | None => None
            end
          else if (n =? 91)%N then
            match skipSpace r with
            | String c' r' =>
                if (Str.code c' =? 93)%N then Some (JArr [], r')
                else
                  match sequence (value fuel') 93%N (String.length s) r with
                  | Some (items, rest) => Some (JArr items, rest)
                  | None => None
                  end
            | EmptyString => None
            end
          else if (n =? 123)%N then
            match skipSpace r with
            | String c' r' =>
                if (Str.code c' =? 125)%N then Some (JObj [], r')
                else
                  match sequence (member (value fuel')) 125%N (String.length s) r with
                  | Some (members, rest) =>
                      Some (JObj (fold_left (fun acc kv => setProp (fst kv) (snd kv) acc)
                                            members []), rest)
                  | None => None
                  end
            | EmptyString => None
            end
          else None
      end
  end.

Definition parse (s : string) : option json :=
  match value (S (String.length s)) (skipSpace s) with
  | Some (v, rest) => if skipSpace rest =? "" then Some v else None
  | None => None
  end.

(** *** What the printer writes

    The vocabulary of the proof that [parse] reads back what
    [stringify] wrote. *)

(** A number ends in front of [rest]. *)
Definition endsNumber (rest : string) : bool :=
  match rest with
  | EmptyString => true
  | String c _ =>
      let m := Str.code c in
      negb (isDigit c || (m =? 46) || (m =? 101) || (m =? 69))%N
  end.

(** The nesting of arrays and objects. *)
Fixpoint depth (v : json) : nat :=
  match v with
  | JArr items => S (fold_right (fun x d => Nat.max (depth x) d) O items)
  | JObj props => S (fold_right (fun kv d => Nat.max (depth (snd kv)) d) O props)
  | _ => O
  end.

(** No object of [v] has the same property name twice. *)
Fixpoint distinctKeys (v : json) : Prop :=
  match v with
  | JArr items => fold_right (fun x P => distinctKeys x /\ P) True items
  | JObj props =>
      NoDup (map fst props) /\
      fold_right (fun kv P => distinctKeys (snd kv) /\ P) True props
  | _ => True
  end.

(** The first character of a printed value: not a blank, not a
    closing bracket. *)
Definition startsValue (s : string) : Prop :=
  exists c r,
    s = String c r /\ isJsonSpace c = false /\
    (Str.code c =? 93)%N = false /\ (Str.code c =? 125)%N = false.

(** The text of one property, as [stringify] writes it. *)
Definition printMember (kv : string * json) : string :=
  quote (fst kv) ++ ":" ++ stringify (snd kv).

(** *** Collation *)

(** The printable ASCII characters that are not letters, in the order
    of the root collation: the space, the punctuation, the symbols,
    the dollar sign and the digits. *)
Definition rootOrder : string :=
  " _-,;:!?.'" ++ String "034" "()[]{}@*/\&#%`^+<=>|~$0123456789".

Fixpoint indexOf (c : ascii) (s : string) (k : N) : option N :=
  match s with
  | EmptyString => None
  | String c' r => if (Str.code c' =? Str.code c)%N then Some k else indexOf c r (k + 1)%N
  end.

(** The primary weight of a character, as a character: its place in
    [rootOrder] (from 32 on, so below the letters), and for the other
    characters the lower-case form. *)
Definition weight (c : ascii) : ascii :=
  match indexOf c rootOrder 32 with
  | Some k => ascii_of_N k
  | None => Str.lowerChar c
  end.

Fixpoint primaryKey (s : string) : string :=
  match s with
  | EmptyString => EmptyString
  | String c r => String (weight c) (primaryKey r)
  end.

Definition swapCaseChar (c : ascii) : ascii :=
  let n := Str.code c in
  if ((65 <=? n) && (n <=? 90))%N then ascii_of_N (n + 32)
  else if ((97 <=? n) && (n <=? 122))%N then ascii_of_N (n - 32)
  else c.

Fixpoint swapCase (s : string) : string :=
  match s with
  | EmptyString => EmptyString
  | String c r => String (swapCaseChar c) (swapCase r)
  end.

Definition signOf (c : comparison) : Z :=
  match c with Lt => -1 | Eq => 0 | Gt => 1 end.

Definition collate (a b : string) : Z :=
  match String.compare (primaryKey a) (primaryKey b) with
  | Eq => signOf (String.compare (swapCase a) (swapCase b))
  | c => signOf c
  end.

Definition host : Host :=
  {| JSON_stringify := stringify; JSON_parse := parse; localeCompare := collate |}.

End Browser.

(** ** Vocabulary of the properties *)

Section Vocabulary.
Context {host : Host}.

(** The host's parser gives back the value [v] from the text its
    printer wrote for it (and that text is not empty, so the script's
    test [if (storedData)] passes). *)
Definition survives (v : json) : Prop :=
  JSON_stringify v <> "" /\ JSON_parse (JSON_stringify v) = Some v.

(** The storage entry parses to an object whose [lastVisitDate] is
    the string [d]. *)
Definition storedLastVisitDate (s : State) (d : string) : Prop :=
  exists txt v,
    localStorage s = Some txt /\ txt <> "" /\ JSON_parse txt = Some v /\
    getProp v "lastVisitDate" = Ok (Some (JStr d)).

(** The call [checkDailyReset()] tells its caller whether it reset
    the habits: it evaluates to [false] when the stored date is
    today's, and to [true] when it is another date. *)
Definition returnsWhetherReset (today : string) (s : State) : Prop :=
  forall d, storedLastVisitDate s d ->
  checkDailyReset_result today s = Ok (Some (JBool (negb (d =? today)))).

(** The storage entry parses to the snapshot of the list [hs]. *)
Definition storedHabits (s : State) (hs : list Habit) : Prop :=
  exists txt d,
    localStorage s = Some txt /\ txt <> "" /\ JSON_parse txt = Some (dataJson d hs).

(** One thing that can happen to the page: the user edits the two
    inputs, or one of the script's functions runs to its end. *)
Inductive step : State -> State -> Prop :=
| step_input n t s : step s (set_inputs n t s)
| step_add now today s : step s (addHabit now today s)
| step_toggle today i s : step s (toggleHabit today i s)
| step_delete today confirmed i s : step s (deleteHabit today confirmed i s)
| step_reset today s s' : checkDailyReset today s = Ok s' -> step s s'
| step_load s s' : loadData s = Ok s' -> step s s'
| step_save today s : step s (saveData today s)
| step_render s : step s (renderHabits s)
| step_progress s : step s (updateProgress s).

Inductive reachable : State -> Prop :=
| reach_initial s : isInitial s -> reachable s
| reach_step s s' : reachable s -> step s s' -> reachable s'.

(** [totalPoints] is ten times the number of completed habits. *)
Definition pointsAgree (s : State) : Prop :=
  totalPoints s = 10 * Z.of_nat (completedCount (habits s)).


(** What a comparator must satisfy for [sort] to have a defined
    result, for [localeCompare]. *)
Record ConsistentCollation : Prop := {
  collation_total : forall a b, localeCompare a b <= 0 \/ localeCompare b a <= 0;
  collation_trans : forall a b c,
    localeCompare a b <= 0 -> localeCompare b c <= 0 -> localeCompare a c <= 0
}.

(** [a] may stand before [b] in the displayed list. *)
Definition shownBefore (a b : Habit) : Prop :=
  (completed a = false /\ completed b = true) \/
  (completed a = completed b /\ localeCompare (time a) (time b) <= 0).

End Vocabulary.

(** The order of the code units, the one [<] has on strings. *)
Definition codeUnitLe (a b : string) : Prop := String.compare a b <> Gt.

(** [shownBefore] with the code-unit order in place of the collation. *)
Definition shownBeforeByCodeUnits (a b : Habit) : Prop :=
  (completed a = false /\ completed b = true) \/
  (completed a = completed b /\ codeUnitLe (time a) (time b)).

(** A time of the form [HH:MM]: two digits, a colon, two digits. *)
Definition isClock (t : string) : bool :=
  match t with
  | String h1 (String h2 (String c (String m1 (String m2 EmptyString)))) =>
      Browser.isDigit h1 && Browser.isDigit h2 && (Str.code c =? 58)%N &&
      Browser.isDigit m1 && Browser.isDigit m2
  | _ => false
  end.

(** The times a habit has: the word [addHabit] puts in the place of
    an empty input, or a time [HH:MM]. *)
Definition pageTime (t : string) : Prop := t = "Anytime" \/ isClock t = true.

(** On the times a habit has, the host's collation goes with the code
    units: it never puts such a time before one that is smaller in
    code units. *)
Definition CollatesTimesByCodeUnits {host : Host} : Prop :=
  forall a b, pageTime a -> pageTime b -> localeCompare a b <= 0 -> codeUnitLe a b.

(** [100 * c / n] rounded to the nearest integer in exact arithmetic,
    a half going up. *)
Definition roundedPercent (c n : nat) : Z :=
  (200 * Z.of_nat c + Z.of_nat n) / (2 * Z.of_nat n).

(** Some habit of the list has the name [n], letter case apart. *)
Definition nameTaken (n : string) (hs : list Habit) : Prop :=
  exists h, In h hs /\ Str.toLowerCase (name h) = Str.toLowerCase n.

(** [toggleHabit] and [deleteHabit] on an id no habit has are no-ops:
    the habit list and the storage entry are exactly what they were
    before the call. *)
Definition noOpOnAbsentId {host : Host} (today : string) (confirmed : bool) (i : Z)
           (s : State) : Prop :=
  (forall h, In h (habits s) -> id h <> i) ->
  (habits (toggleHabit today i s) = habits s /\
   localStorage (toggleHabit today i s) = localStorage s) /\
  (habits (deleteHabit today confirmed i s) = habits s /\
   localStorage (deleteHabit today confirmed i s) = localStorage s).

(** [addHabit] on a name that is neither empty nor taken appends a
    habit whose id differs from every id already in the list. *)
Definition addsFreshId {host : Host} (now : Z) (today : string) (s : State) : Prop :=
  Str.trim (habitNameInput s) <> "" ->
  ~ nameTaken (Str.trim (habitNameInput s)) (habits s) ->
  exists h,
    habits (addHabit now today s) = (habits s ++ [h])%list /\
    forall h', In h' (habits s) -> id h' <> id h.

(** *** States to run the script on *)
Module Example.

Definition monday : string := "Mon Nov 02 2026".
Definition tuesday : string := "Tue Nov 03 2026".

Definition read : Habit := mkHabit 1793600000000 "Read" "07:00" true.
Definition exercise : Habit := mkHabit 1793600060000 "Exercise" "Anytime" false.

(** The page after [read] and [exercise] were added and [read] was
    ticked on Monday, with [name] and [time] typed into the inputs. *)
Definition page (name time : string) : State :=
  set_inputs name time
    (renderHabits (host := Browser.host)
       (saveData (host := Browser.host) monday
          (mkState [read; exercise] 0 None "" "" 0 [] false []))).


(** Forty habits, the first twenty-three of them completed. *)
Definition forty : list Habit :=
  map (fun k => mkHabit (1793600000000 + Z.of_nat k)
                        ("Habit " ++ Browser.decimal (Z.of_nat k)) "Anytime"
                        (k <? 23)%nat)
      (seq 0 40).

End Example.

(** ** The rest of the script

    The functions that only write text to the page: the greeting of
    [updateDateDisplay] and the twelve-hour time of [formatTime].
    They use three more operations of the language, kept apart in
    [Js]. *)
Module Js.

Definition isDigit (c : ascii) : bool :=
  let n := Str.code c in ((48 <=? n) && (n <=? 57))%N.

(** The number the digits at the front of [s] write in base ten;
    [acc] is what has been read so far, [None] while no digit has. *)
Fixpoint digitsValue (s : string) (acc : option N) : option N :=
  match s with
  | String c r =>
      if isDigit c then
        digitsValue r
          (Some (10 * match acc with Some a => a | None => 0 end + (Str.code c - 48))%N)
      else acc
  | EmptyString => acc
  end.

(** [parseInt(s, 10)]: leading white space is skipped, a sign is
    taken, then the digits as far as they go; [None] is [NaN].  The
    value is exact, as it is in the script for numerals of fewer than
    sixteen digits. *)
Definition parseInt (s : string) : option Z :=
  match Str.trimStart s with
  | String c r =>
      if (Str.code c =? 45)%N then option_map (fun n => - Z.of_N n) (digitsValue r None)
      else if (Str.code c =? 43)%N then option_map Z.of_N (digitsValue r None)
      else option_map Z.of_N (digitsValue (String c r) None)
  | EmptyString => None
  end.

(** [s.split(sep)] for a separator of one character. *)
Fixpoint split (sep : ascii) (s : string) : list string :=
  match s with
  | EmptyString => [EmptyString]
  | String c r =>
      if Ascii.eqb c sep then EmptyString :: split sep r
      else
        match split sep r with
        | seg :: rest => String c seg :: rest
        | [] => [String c EmptyString]
        end
  end.

(** A number in a template literal or after [+] on a string. *)
Definition toString (x : option Z) : string :=
  match x with
  | Some z => Browser.decimal z
  | None => "NaN"
  end.

End Js.

(** [hours] is always there; [minutes] is [undefined] when the text
    has no colon, and [parseInt(undefined, 10)] is [NaN].  [h % 12]
    takes the sign of [h], as [Z.rem] does. *)
Definition formatTime (timeStr : string) : string :=
  if timeStr =? "Anytime" then timeStr
  else
    let parts := Js.split ":" timeStr in
    let h := Js.parseInt (nth 0 parts EmptyString) in
    let m := match nth_error parts 1 with
             | Some minutes => Js.parseInt minutes
             | None => None
             end in
    let ampm := match h with
                | Some z => if (12 <=? z)%Z then "PM" else "AM"
                | None => "AM"
                end in
    let formattedHour :=
      match h with
      | Some z => if (Z.rem z 12 =? 0)%Z then Some 12 else Some (Z.rem z 12)
      | None => Some 12
      end in
    let formattedMinute :=
      match m with
      | Some z => if (z <? 10)%Z then "0" ++ Js.toString m else Js.toString m
      | None => Js.toString m
      end in
    Js.toString formattedHour ++ ":" ++ formattedMinute ++ " " ++ ampm.

(** The greeting [updateDateDisplay] writes; [hour] is
    [now.getHours()]. *)
Definition greeting (hour : Z) : string :=
  if (12 <=? hour)%Z && (hour <? 17)%Z then "Good Afternoon"
  else if (17 <=? hour)%Z then "Good Evening"
  else "Good Morning".

(** ** More vocabulary *)

(** A time as a time input gives it: two digits, a colon, two digits. *)
Definition twoDigits (n : nat) : string :=
  (if (n <? 10)%nat then "0" else "") ++ Browser.decimal (Z.of_nat n).

Definition clockTime (h m : nat) : string := twoDigits h ++ ":" ++ twoDigits m.

Fixpoint noDigit (t : string) : bool :=
  match t with
  | EmptyString => true
  | String c r => negb (Js.isDigit c) && noDigit r
  end.

Section MoreVocabulary.
Context {host : Host}.

(** Any number of things happening to the page, one after the other. *)
Inductive runs : State -> State -> Prop :=
| runs_refl s : runs s s
| runs_step s s' s'' : runs s s' -> step s' s'' -> runs s s''.

(** The page as it is loaded the first time: nothing stored. *)
Definition freshInstall (s : State) : Prop :=
  isInitial s /\ localStorage s = None.

(** The storage entry is the snapshot of the list as it is now, or
    there is none and the list is empty. *)
Definition mirrored (s : State) : Prop :=
  (localStorage s = None /\ habits s = []) \/
  exists d, localStorage s = Some (JSON_stringify (dataJson d (habits s))).

(** Every snapshot the script can write survives the host. *)
Definition keepsSnapshots : Prop := forall d hs, survives (dataJson d hs).

End MoreVocabulary.

(** No two habits have the same name, letter case apart; no name and
    no time is empty. *)
(** [kept] is the list [hs] with every habit of id [i] taken out and
    nothing else touched: the other habits are all there, each as it
    was, in the order they had. *)
Inductive takenOut (i : Z) : list Habit -> list Habit -> Prop :=
| takenOut_nil : takenOut i [] []
| takenOut_drop h hs kept :
    id h = i -> takenOut i hs kept -> takenOut i (h :: hs) kept
| takenOut_keep h hs kept :
    id h <> i -> takenOut i hs kept -> takenOut i (h :: hs) (h :: kept).

Definition wellNamed (hs : list Habit) : Prop :=
  NoDup (map (fun h => Str.toLowerCase (name h)) hs) /\
  Forall (fun h => name h <> "" /\ time h <> "") hs.

(** The habits of one group with one time: those among which the
    comparator of [renderHabits] does not decide. *)
Definition sameKey (c : bool) (t : string) (h : Habit) : bool :=
  Bool.eqb (completed h) c && (time h =? t).

(** No string occurs twice in [l]. *)
Fixpoint distinctb (l : list string) : bool :=
  match l with
  | [] => true
  | x :: r => negb (existsb (String.eqb x) r) && distinctb r
  end.

(** A page just opened on the storage entry [stored]. *)
Definition opened (stored : option string) : State :=
  mkState [] 0 stored "" "" 0 [] false [].

(** * Properties *)

(** ** Strings and lists *)

Lemma existsb_nameTaken (n : string) (hs : list Habit) :
  existsb (fun h => Str.toLowerCase (name h) =? Str.toLowerCase n) hs = true <->
  nameTaken n hs.
Proof.
  unfold nameTaken. rewrite existsb_exists.
  split; intros [h [Hin Heq]]; exists h; split; auto; now apply String.eqb_eq.
Qed.

(** ** What the functions leave alone *)

Section Frames.
Context {host : Host}.

Lemma habits_saveData today s : habits (saveData today s) = habits s.
Proof. reflexivity. Qed.

Lemma habits_renderHabits s : habits (renderHabits s) = habits s.
Proof. unfold renderHabits. now destruct (List.length (habits s) =? 0)%nat. Qed.

Lemma totalPoints_renderHabits s : totalPoints (renderHabits s) = totalPoints s.
Proof. unfold renderHabits. now destruct (List.length (habits s) =? 0)%nat. Qed.

Lemma localStorage_renderHabits s : localStorage (renderHabits s) = localStorage s.
Proof. unfold renderHabits. now destruct (List.length (habits s) =? 0)%nat. Qed.

Lemma alerts_renderHabits s : alerts (renderHabits s) = alerts s.
Proof. unfold renderHabits. now destruct (List.length (habits s) =? 0)%nat. Qed.

Lemma totalPoints_saveData today s :
  totalPoints (saveData today s) = Z.of_nat (completedCount (habits s)) * POINTS_PER_HABIT.
Proof. reflexivity. Qed.

Lemma localStorage_saveData today s :
  localStorage (saveData today s) = Some (JSON_stringify (dataJson today (habits s))).
Proof. reflexivity. Qed.

End Frames.

(** ** [addHabit] *)

Section AddHabit.
Context {host : Host}.

Lemma addHabit_empty now today s :
  Str.trim (habitNameInput s) = "" -> addHabit now today s = alert emptyNameMessage s.
Proof. intros Hempty. unfold addHabit. now rewrite Hempty. Qed.

Lemma addHabit_taken now today s :
  Str.trim (habitNameInput s) <> "" ->
  nameTaken (Str.trim (habitNameInput s)) (habits s) ->
  addHabit now today s = alert duplicateMessage s.
Proof.
intros Hne Htaken. unfold addHabit.
destruct (Str.trim (habitNameInput s) =? "") eqn:E.
- apply String.eqb_eq in E. contradiction.
- apply existsb_nameTaken in Htaken. now rewrite Htaken.
Qed.

Lemma addHabit_appends now today s :
  Str.trim (habitNameInput s) <> "" ->
  ~ nameTaken (Str.trim (habitNameInput s)) (habits s) ->
  habits (addHabit now today s) =
  (habits s ++ [mkHabit now (Str.trim (habitNameInput s))
                  (if habitTimeInput s =? "" then "Anytime" else habitTimeInput s) false])%list.
Proof.
  intros Hne Hfree. unfold addHabit.
  destruct (Str.trim (habitNameInput s) =? "") eqn:E.
  - apply String.eqb_eq in E. contradiction.
  - destruct (existsb _ (habits s)) eqn:D.
    + apply existsb_nameTaken in D. contradiction.
    + cbn [habits set_inputs]. now rewrite habits_renderHabits.
Qed.

(** C1 (as amended): [addHabit] trims the name typed.  On an empty
    trimmed name it alerts "Please enter a habit name." and leaves the
    list as it is (the spec's ValidationError); on a name some habit
    already has, letter case apart, it alerts "This habit already
    exists!" and leaves the list as it is (DuplicateError).  In every
    other case the list grows by exactly one habit, at its end:
    not completed, with the time typed or "Anytime" when none was
    typed, and with the clock reading [now] as its id, which differs
    from every id in the list as soon as no habit there has that
    reading as its id. *)
Theorem addHabit_outcomes (now : Z) (today : string) (s : State) :
  let typed := Str.trim (habitNameInput s) in
  let s' := addHabit now today s in
  (typed = "" -> s' = alert emptyNameMessage s /\ habits s' = habits s) /\
  (typed <> "" -> nameTaken typed (habits s) ->
     s' = alert duplicateMessage s /\ habits s' = habits s) /\
  (typed <> "" -> ~ nameTaken typed (habits s) ->
     let h := mkHabit now typed
                (if habitTimeInput s =? "" then "Anytime" else habitTimeInput s) false in
     habits s' = (habits s ++ [h])%list /\
     List.length (habits s') = S (List.length (habits s)) /\
     completed h = false /\ id h = now /\
     ((forall h', In h' (habits s) -> id h' <> now) ->
      forall h', In h' (habits s) -> id h' <> id h)).
Proof.
intros typed s'. subst typed s'. split; [|split].
- intros Hempty. now rewrite (addHabit_empty now today s Hempty).
- intros Hne Htaken. now rewrite (addHabit_taken now today s Hne Htaken).
- intros Hne Hfree h. subst h. rewrite (addHabit_appends now today s Hne Hfree).
  split; [reflexivity|]. split; [rewrite length_app; cbn; lia|].
  split; [reflexivity|]. split; [reflexivity|]. intros Hfresh. exact Hfresh.
Qed.

End AddHabit.

(** [addHabit_outcomes] run on the example page: a name of blanks, the
    name of [read] in other letters, and a new name with no time. *)
Lemma addHabit_outcomes_witness :
  habits (addHabit (host := Browser.host) 1793600120000 Example.monday
            (Example.page "   " "06:30")) = [Example.read; Example.exercise] /\
  alerts (addHabit (host := Browser.host) 1793600120000 Example.monday
            (Example.page " rEAD" "06:30")) = [duplicateMessage] /\
  habits (addHabit (host := Browser.host) 1793600120000 Example.monday
            (Example.page " Run " "")) =
  [Example.read; Example.exercise; mkHabit 1793600120000 "Run" "Anytime" false].
Proof.
  split; [|split].
  - destruct (addHabit_outcomes (host := Browser.host) 1793600120000 Example.monday
                (Example.page "   " "06:30")) as [Hempty _].
    destruct Hempty as [_ Hsame]; [reflexivity|]. exact Hsame.
  - destruct (addHabit_outcomes (host := Browser.host) 1793600120000 Example.monday
                (Example.page " rEAD" "06:30")) as [_ [Hdup _]].
    destruct Hdup as [Hstate _].
    + vm_compute. discriminate.
    + exists Example.read. split; [left; reflexivity | reflexivity].
    + rewrite Hstate. reflexivity.
  - destruct (addHabit_outcomes (host := Browser.host) 1793600120000 Example.monday
                (Example.page " Run " "")) as [_ [_ Hnew]].
    destruct Hnew as [Happ _].
    + vm_compute. discriminate.
    + intro Htaken. apply existsb_nameTaken in Htaken. vm_compute in Htaken. discriminate.
    + rewrite Happ. reflexivity.
Defined.

(** C1, as the spec states it, fails: when the clock reads the id of a
    habit already in the list (here that of [exercise]), the habit
    appended carries that same id. *)
Lemma addHabit_id_can_repeat :
  ~ addsFreshId (host := Browser.host) (id Example.exercise) Example.monday
      (Example.page "Run" "").
Proof.
  unfold addsFreshId. intro Hclaim.
  destruct Hclaim as [h [Happ Hfresh]].
  - vm_compute. discriminate.
  - intro Htaken. apply existsb_nameTaken in Htaken. vm_compute in Htaken. discriminate.
  - vm_compute in Happ. injection Happ as Hh. subst h.
    apply (Hfresh Example.exercise); [right; left; reflexivity | reflexivity].
Qed.

(** ** Reading back what [saveData] wrote *)

Lemma asHabit_habitJson (h : Habit) : asHabit (habitJson h) = Some h.
Proof. now destruct h. Qed.

Lemma asHabits_habitJson (hs : list Habit) : asHabits (map habitJson hs) = Some hs.
Proof.
induction hs as [|h hs IH]; [reflexivity|].
cbn [map asHabits]. now rewrite asHabit_habitJson, IH.
Qed.

Lemma set_habits_same (s : State) : set_habits (habits s) s = s.
Proof. now destruct s. Qed.

Section Persistence.
Context {host : Host}.

Lemma loadData_snapshot (s : State) (txt d : string) (hs : list Habit) :
  localStorage s = Some txt -> txt <> "" -> JSON_parse txt = Some (dataJson d hs) ->
  loadData s = Ok (calculatePoints (set_habits hs s)).
Proof.
intros Hslot Hne Hparse. unfold loadData. rewrite Hslot.
destruct (txt =? "") eqn:E; [apply String.eqb_eq in E; contradiction|].
rewrite Hparse. cbn. now rewrite asHabits_habitJson.
Qed.


(** How [loadData] can end normally: nothing stored and nothing done,
    or a text that parses to a value other than [null], and [habits]
    assigned. *)
Lemma loadData_inv (s s' : State) :
  loadData s = Ok s' ->
  ((localStorage s = None \/ localStorage s = Some "") /\ s' = s) \/
  (exists txt v o hs,
     localStorage s = Some txt /\ txt <> "" /\ JSON_parse txt = Some v /\
     getProp v "habits" = Ok o /\ s' = calculatePoints (set_habits hs s)).
Proof.
unfold loadData. intros Hrun.
destruct (localStorage s) as [txt|] eqn:Hslot; [|injection Hrun as <-; auto].
destruct (txt =? "") eqn:E.
- apply String.eqb_eq in E. subst txt. injection Hrun as <-. auto.
- apply String.eqb_neq in E. right.
  destruct (JSON_parse txt) as [v|] eqn:Hparse; [|discriminate].
  destruct (getProp v "habits") as [o| |] eqn:Hprop; cbn [bind] in Hrun; try discriminate.
  exists txt, v, o. destruct (truthy o).
  + destruct o as [[| | | |items|]|]; try discriminate.
    destruct (asHabits items) as [hs|]; [|discriminate].
    exists hs. injection Hrun as <-. repeat split; auto.
  + exists []. injection Hrun as <-. repeat split; auto.
Qed.

(** How [checkDailyReset] can end normally: nothing done, or the
    reset, the save and the alert. *)
Lemma checkDailyReset_inv (today : string) (s s' : State) :
  checkDailyReset today s = Ok s' ->
  s' = s \/
  s' = alert newDayMessage
         (saveData today (set_habits (map (setCompleted false) (habits s)) s)).
Proof.
unfold checkDailyReset. intros Hrun.
destruct (localStorage s) as [txt|]; [|injection Hrun as <-; auto].
destruct (txt =? ""); [injection Hrun as <-; auto|].
destruct (JSON_parse txt) as [v|]; [|discriminate].
destruct (getProp v "lastVisitDate") as [o| |]; cbn [bind] in Hrun; try discriminate.
destruct (strictEqString o today); cbn [negb] in Hrun; injection Hrun as <-; auto.
Qed.

Lemma storedLastVisitDate_snapshot (s : State) (txt d : string) (hs : list Habit) :
  localStorage s = Some txt -> txt <> "" -> JSON_parse txt = Some (dataJson d hs) ->
  storedLastVisitDate s d.
Proof. intros Hslot Hne Hparse. exists txt, (dataJson d hs). now repeat split. Qed.

(** C4: what [saveData] writes, [loadData] reads back.  Whenever the
    host's parser returns the snapshot from the text its printer wrote
    for it, any page whose storage entry is the one left by
    [saveData today s] (the same page, or the page loaded again) ends
    [loadData] normally with the habit list of [s], element for
    element and in the same order, and the [lastVisitDate] read from
    the entry is the date [saveData] stamped. *)
Theorem save_then_load (today : string) (s s0 : State) :
  survives (dataJson today (habits s)) ->
  localStorage s0 = localStorage (saveData today s) ->
  exists s', loadData s0 = Ok s' /\
             habits s' = habits s /\
             storedLastVisitDate s' today.
Proof.
intros [Hne Hparse] Hslot. rewrite localStorage_saveData in Hslot.
exists (calculatePoints (set_habits (habits s) s0)). split; [|split].
- now apply loadData_snapshot with (txt := JSON_stringify (dataJson today (habits s)))
                                   (d := today).
- reflexivity.
- now apply storedLastVisitDate_snapshot
    with (txt := JSON_stringify (dataJson today (habits s))) (hs := habits s).
Qed.

(** On the page that saved, loading changes nothing. *)
Lemma loadData_after_saveData (today : string) (s : State) :
  survives (dataJson today (habits s)) ->
  loadData (saveData today s) = Ok (saveData today s).
Proof.
intros [Hne Hparse].
rewrite loadData_snapshot with (txt := JSON_stringify (dataJson today (habits s)))
                               (d := today) (hs := habits s); auto.
Qed.

End Persistence.

(** ** The concrete host reads back what it prints *)

Lemma append_assoc (a b c : string) : (a ++ b) ++ c = a ++ (b ++ c).
Proof. induction a as [|x a IH]; cbn; [reflexivity | now rewrite IH]. Qed.

(** A string literal is read back: by cases on the 256 code units. *)
Lemma stringBody_escape (s rest : string) :
  Browser.stringBody (Browser.escape s ++ String "034" rest) = Some (s, rest).
Proof.
induction s as [|c s IH]; [reflexivity|].
destruct c as [[] [] [] [] [] [] [] []]; cbn; rewrite IH; reflexivity.
Qed.

Lemma quote_parses (s rest : string) :
  Browser.quote s ++ rest = String "034" (Browser.escape s ++ String "034" rest).
Proof. unfold Browser.quote. cbn. now rewrite append_assoc. Qed.

(** Integer literals. *)
Section Digits.
Local Open Scope N_scope.

Lemma code_digit (d : N) : d < 10 -> Str.code (ascii_of_N (48 + d)) = 48 + d.
Proof. intros Hd. unfold Str.code. apply N_ascii_embedding. lia. Qed.

Lemma isDigit_digit (d : N) : d < 10 -> Browser.isDigit (ascii_of_N (48 + d)) = true.
Proof.
intros Hd. unfold Browser.isDigit. rewrite code_digit by exact Hd.
apply andb_true_iff. split; apply N.leb_le; lia.
Qed.

Lemma digitsOf_app (f : nat) (p : N) (acc rest : string) :
  (Browser.digitsOf f p acc ++ rest)%string = Browser.digitsOf f p (acc ++ rest)%string.
Proof.
revert p acc. induction f as [|f IH]; intros p acc; cbn [Browser.digitsOf]; [reflexivity|].
destruct (p / 10 =? 0); [reflexivity|]. now rewrite IH.
Qed.

Lemma digitRun_digitsOf (f : nat) (p : N) (acc : string) :
  p < 10 ^ N.of_nat f ->
  Browser.digitRun (Browser.digitsOf f p acc) 0 = Browser.digitRun acc p.
Proof.
revert p acc. induction f as [|f IH]; intros p acc Hp.
- cbn in Hp. assert (p = 0) by lia. now subst p.
- cbn [Browser.digitsOf].
  assert (Hmod : p mod 10 < 10) by (apply N.mod_lt; lia).
  assert (Hstep : forall a, Browser.digitRun (String (ascii_of_N (48 + p mod 10)) acc) a =
                            Browser.digitRun acc (10 * a + p mod 10)).
  { intros a. cbn [Browser.digitRun]. rewrite isDigit_digit, code_digit by exact Hmod.
    f_equal. now rewrite (N.add_comm 48), N.add_sub. }
  destruct (p / 10 =? 0) eqn:E.
  + apply N.eqb_eq in E. rewrite Hstep. f_equal.
    rewrite (N.div_mod p 10) at 2 by lia. rewrite E. clear. lia.
  + rewrite IH.
    * rewrite Hstep. f_equal. rewrite (N.div_mod p 10) at 3 by lia. clear. lia.
    * rewrite Nat2N.inj_succ, N.pow_succ_r' in Hp.
      apply N.Div0.div_lt_upper_bound. lia.
Qed.

Lemma digitsOf_head (f : nat) (p : N) (acc : string) :
  0 < p -> p < 10 ^ N.of_nat f ->
  exists d r, 1 <= d /\ d < 10 /\ Browser.digitsOf f p acc = String (ascii_of_N (48 + d)) r.
Proof.
revert p acc. induction f as [|f IH]; intros p acc Hpos Hp.
- cbn in Hp. lia.
- cbn [Browser.digitsOf].
  assert (Hmod : p mod 10 < 10) by (apply N.mod_lt; lia).
  destruct (p / 10 =? 0) eqn:E.
  + apply N.eqb_eq in E. exists (p mod 10), acc. repeat split; auto.
    rewrite (N.div_mod p 10) in Hpos by lia. rewrite E in Hpos. clear - Hpos. lia.
  + apply N.eqb_neq in E. apply IH; [now apply N.neq_0_lt_0|].
    rewrite Nat2N.inj_succ, N.pow_succ_r' in Hp.
    apply N.Div0.div_lt_upper_bound. lia.
Qed.

Lemma enough_digits (p : N) : p < 10 ^ N.of_nat (S (N.to_nat (N.log2 p))).
Proof.
rewrite Nat2N.inj_succ, N2Nat.id.
destruct (N.eq_dec p 0) as [->|Hp]; [cbn; lia|].
apply N.lt_le_trans with (m := 2 ^ N.succ (N.log2 p)).
- apply N.log2_spec. lia.
- apply N.pow_le_mono_l. lia.
Qed.

Lemma digitRun_end (rest : string) (p : N) :
  Browser.endsNumber rest = true -> Browser.digitRun rest p = (p, rest).
Proof.
destruct rest as [|c r]; [reflexivity|]. cbn [Browser.endsNumber Browser.digitRun].
intros H. apply negb_true_iff in H. rewrite !orb_false_iff in H.
destruct H as [[[Hd _] _] _]. now rewrite Hd.
Qed.

(** The digits written for [p] are read back as [p]. *)
Lemma naturalLit_digits (p : N) (rest : string) :
  Browser.endsNumber rest = true ->
  Browser.naturalLit (Browser.digitsOf (S (N.to_nat (N.log2 p))) p rest) = Some (p, rest).
Proof.
intros Hend.
assert (Hrest : match rest with
                | String d _ =>
                    let m := Str.code d in
                    if Browser.isDigit d || (m =? 46) || (m =? 101) || (m =? 69)
                    then None else Some (p, rest)
                | EmptyString => Some (p, rest)
                end = Some (p, rest)).
{ destruct rest as [|d r]; [reflexivity|]. cbn [Browser.endsNumber] in Hend.
  apply negb_true_iff in Hend. cbv zeta in *. now rewrite Hend. }
destruct (N.eq_dec p 0) as [->|Hp].
- cbn. exact Hrest.
- destruct (digitsOf_head (S (N.to_nat (N.log2 p))) p rest) as (d & r & Hd1 & Hd9 & Hhead);
    [lia | apply enough_digits |].
  pose proof (digitRun_digitsOf _ p rest (enough_digits p)) as Hrun.
  rewrite (digitRun_end rest p Hend) in Hrun.
  rewrite Hhead in *. unfold Browser.naturalLit.
  rewrite isDigit_digit by exact Hd9. rewrite code_digit by exact Hd9.
  destruct (48 + d =? 48) eqn:E; [apply N.eqb_eq in E; lia|].
  rewrite Hrun. exact Hrest.
Qed.

End Digits.

Lemma length_append (a b : string) :
  String.length (a ++ b) = (String.length a + String.length b)%nat.
Proof. induction a as [|x a IH]; cbn; [reflexivity | now rewrite IH]. Qed.

Lemma startsValue_digits (p : N) (rest : string) :
  Browser.startsValue (Browser.digitsOf (S (N.to_nat (N.log2 p))) p rest).
Proof.
destruct (N.eq_dec p 0) as [->|Hp].
- cbn. repeat eexists.
- destruct (digitsOf_head (S (N.to_nat (N.log2 p))) p rest) as (d & r & Hd1 & Hd9 & Hhead);
    [lia | apply enough_digits |].
  exists (ascii_of_N (48 + d)), r. split; [exact Hhead|].
  unfold Browser.isJsonSpace. rewrite code_digit by exact Hd9.
  repeat split; repeat (apply orb_false_iff; split); apply N.eqb_neq; lia.
Qed.

Lemma startsValue_stringify (v : json) (rest : string) :
  Browser.startsValue (Browser.stringify v ++ rest).
Proof.
destruct v as [|[]|z|s|items|props]; cbn [Browser.stringify];
  try (cbn; repeat eexists; fail).
unfold Browser.decimal. destruct (z <? 0)%Z.
- cbn. repeat eexists.
- rewrite digitsOf_app. apply startsValue_digits.
Qed.

Lemma append_empty (s : string) : s ++ "" = s.
Proof. induction s as [|c s IH]; cbn; [reflexivity | now rewrite IH]. Qed.

Lemma startsValue_nonempty (s : string) :
  Browser.startsValue (s ++ "") -> (1 <= String.length s)%nat.
Proof. rewrite append_empty. intros (c & r & -> & _). cbn. lia. Qed.

Lemma skipSpace_startsValue (s : string) : Browser.startsValue s -> Browser.skipSpace s = s.
Proof. intros (c & r & -> & Hc & _). cbn. now rewrite Hc. Qed.

Lemma joinWith_more (sep p q : string) (rest : list string) :
  Browser.joinWith sep (p :: q :: rest) = p ++ sep ++ Browser.joinWith sep (q :: rest).
Proof. reflexivity. Qed.

Section Sequence.
Context {A : Type} (elem : string -> option (A * string)) (print : A -> string) (close : ascii).
Hypothesis close_not_space : Browser.isJsonSpace close = false.
Hypothesis close_not_comma : (Str.code close =? 44)%N = false.
Hypothesis close_ends : forall r, Browser.endsNumber (String close r) = true.

Lemma length_joinWith (xs : list A) :
  (forall x, In x xs -> (1 <= String.length (print x))%nat) ->
  (List.length xs <= String.length (Browser.joinWith "," (map print xs)))%nat.
Proof.
induction xs as [|x [|y ys] IH]; intros Hlen.
- apply Nat.le_0_l.
- apply Hlen. now left.
- cbn [map]. rewrite joinWith_more, !length_append. cbn [String.length List.length].
  assert (Hx : (1 <= String.length (print x))%nat) by (apply Hlen; now left).
  assert (Hrest : (List.length (y :: ys) <=
                   String.length (Browser.joinWith "," (map print (y :: ys))))%nat).
  { apply IH. intros z Hz. apply Hlen. now right. }
  cbn [List.length map] in Hrest. lia.
Qed.

(** Elements written with commas between them and [close] after them
    are read back one by one. *)
Lemma sequence_joinWith (xs : list A) (n : nat) (rest : string) :
  xs <> [] -> (List.length xs <= n)%nat ->
  (forall x r, In x xs -> Browser.endsNumber r = true ->
     elem (print x ++ r) = Some (x, r) /\ Browser.startsValue (print x ++ r)) ->
  Browser.sequence elem (Str.code close) n
    (Browser.joinWith "," (map print xs) ++ String close rest) = Some (xs, rest).
Proof.
revert n. induction xs as [|x [|y ys] IH]; intros n Hne Hn Helem; [contradiction| |].
- destruct n as [|n]; [cbn in Hn; lia|].
  cbn [map Browser.joinWith Browser.sequence].
  destruct (Helem x (String close rest)) as [Hx Hstart]; [now left | apply close_ends |].
  rewrite (skipSpace_startsValue _ Hstart), Hx.
  cbn [Browser.skipSpace]. rewrite close_not_space. now rewrite N.eqb_refl.
- destruct n as [|n]; [cbn in Hn; lia|].
  cbn [map]. rewrite joinWith_more. cbn [Browser.sequence].
  rewrite !append_assoc. cbn [append].
  set (tail := (Browser.joinWith "," (print y :: map print ys) ++ String close rest)).
  destruct (Helem x (String "," tail)) as [Hx Hstart]; [now left | reflexivity |].
  rewrite (skipSpace_startsValue _ Hstart), Hx.
  cbn [Browser.skipSpace]. change (Browser.isJsonSpace ",") with false. cbv iota.
  change (Str.code ",") with 44%N. rewrite N.eqb_sym, close_not_comma. cbn [N.eqb Pos.eqb].
  unfold tail. change (print y :: map print ys) with (map print (y :: ys)).
  rewrite IH; [reflexivity | discriminate | cbn [List.length] in *; lia |].
  intros z r Hz. apply Helem. now right.
Qed.

End Sequence.

Lemma setProp_fresh (k : string) (v : json) (props : list (string * json)) :
  ~ In k (map fst props) -> Browser.setProp k v props = (props ++ [(k, v)])%list.
Proof.
induction props as [|[k' v'] props IH]; intros Hfresh; [reflexivity|].
cbn [Browser.setProp]. destruct (k' =? k) eqn:E.
- apply String.eqb_eq in E. exfalso. apply Hfresh. now left.
- cbn. rewrite IH; [reflexivity|]. intros Hin. apply Hfresh. now right.
Qed.

Lemma fold_setProp (members acc : list (string * json)) :
  NoDup (map fst (acc ++ members)) ->
  fold_left (fun acc kv => Browser.setProp (fst kv) (snd kv) acc) members acc =
  (acc ++ members)%list.
Proof.
revert acc. induction members as [|[k v] members IH]; intros acc Hnodup; cbn [fold_left].
- now rewrite app_nil_r.
- cbn [fst snd]. rewrite setProp_fresh.
  + rewrite IH; rewrite <- app_assoc; [reflexivity | exact Hnodup].
  + rewrite map_app in Hnodup. cbn in Hnodup. apply NoDup_remove_2 in Hnodup.
    intros Hin. apply Hnodup. apply in_or_app. now left.
Qed.

Lemma depth_item (x : json) (items : list json) :
  In x items ->
  (Browser.depth x <= fold_right (fun x d => Nat.max (Browser.depth x) d) O items)%nat.
Proof.
induction items as [|y items IH]; intros Hin; [contradiction|]. cbn [fold_right].
destruct Hin as [-> | Hin]; [lia | specialize (IH Hin); lia].
Qed.

Lemma depth_member (kv : string * json) (props : list (string * json)) :
  In kv props ->
  (Browser.depth (snd kv) <=
   fold_right (fun kv d => Nat.max (Browser.depth (snd kv)) d) O props)%nat.
Proof.
induction props as [|y props IH]; intros Hin; [contradiction|]. cbn [fold_right].
destruct Hin as [-> | Hin]; [lia | specialize (IH Hin); lia].
Qed.

Lemma distinctKeys_item (x : json) (items : list json) :
  fold_right (fun x P => Browser.distinctKeys x /\ P) True items -> In x items ->
  Browser.distinctKeys x.
Proof.
induction items as [|y items IH]; intros Hall Hin; [contradiction|].
cbn [fold_right] in Hall. destruct Hall as [Hy Hall].
destruct Hin as [-> | Hin]; [exact Hy | now apply IH].
Qed.

Lemma distinctKeys_member (kv : string * json) (props : list (string * json)) :
  fold_right (fun kv P => Browser.distinctKeys (snd kv) /\ P) True props -> In kv props ->
  Browser.distinctKeys (snd kv).
Proof.
induction props as [|y props IH]; intros Hall Hin; [contradiction|].
cbn [fold_right] in Hall. destruct Hall as [Hy Hall].
destruct Hin as [-> | Hin]; [exact Hy | now apply IH].
Qed.

Lemma value_quote (f : nat) (r : string) :
  Browser.value (S f) (String "034" r) =
  match Browser.stringBody r with
  | Some (str, rest) => Some (JStr str, rest)
  | None => None
  end.
Proof. reflexivity. Qed.

Lemma value_minus (f : nat) (r : string) :
  Browser.value (S f) (String "-" r) =
  match Browser.naturalLit r with
  | Some (m, rest) => Some (JNum (- Z.of_N m), rest)
  | None => None
  end.
Proof. reflexivity. Qed.

Lemma value_digit (f : nat) (d : N) (r : string) :
  (d < 10)%N ->
  Browser.value (S f) (String (ascii_of_N (48 + d)) r) =
  match Browser.naturalLit (String (ascii_of_N (48 + d)) r) with
  | Some (m, rest) => Some (JNum (Z.of_N m), rest)
  | None => None
  end.
Proof.
intros Hd. cbn [Browser.value]. cbv zeta.
rewrite isDigit_digit, code_digit by exact Hd.
repeat match goal with
       | |- context [(48 + d =? ?k)%N] =>
           let E := fresh in
           destruct (48 + d =? k)%N eqn:E; [apply N.eqb_eq in E; lia | clear E]
       end.
reflexivity.
Qed.

Lemma value_bracket (f : nat) (r : string) :
  Browser.value (S f) (String "[" r) =
  match Browser.skipSpace r with
  | String c' r' =>
      if (Str.code c' =? 93)%N then Some (JArr [], r')
      else
        match Browser.sequence (Browser.value f) (Str.code "]") (S (String.length r)) r with
        | Some (items, rest) => Some (JArr items, rest)
        | None => None
        end
  | EmptyString => None
  end.
Proof. reflexivity. Qed.

Lemma value_brace (f : nat) (r : string) :
  Browser.value (S f) (String "{" r) =
  match Browser.skipSpace r with
  | String c' r' =>
      if (Str.code c' =? 125)%N then Some (JObj [], r')
      else
        match Browser.sequence (Browser.member (Browser.value f)) (Str.code "}")
                (S (String.length r)) r with
        | Some (members, rest) =>
            Some (JObj (fold_left (fun acc kv => Browser.setProp (fst kv) (snd kv) acc)
                                  members []), rest)
        | None => None
        end
  | EmptyString => None
  end.
Proof. reflexivity. Qed.

Lemma member_printMember (value : string -> option (json * string))
      (kv : string * json) (r : string) :
  value (Browser.stringify (snd kv) ++ r) = Some (snd kv, r) ->
  Browser.member value (Browser.printMember kv ++ r) = Some (kv, r).
Proof.
intros Hvalue. unfold Browser.printMember. rewrite !append_assoc, quote_parses.
cbn [Browser.member]. change (Str.code "034" =? 34)%N with true. cbv iota.
rewrite stringBody_escape. cbn [append Browser.skipSpace].
change (Browser.isJsonSpace ":") with false. cbv iota.
change (Str.code ":" =? 58)%N with true. cbv iota.
rewrite (skipSpace_startsValue _ (startsValue_stringify (snd kv) r)), Hvalue.
now destruct kv.
Qed.

(** The text of a value, followed by anything a number may end in
    front of, is read back as that value, given fuel beyond its
    nesting. *)
Lemma value_stringify (fuel : nat) :
  forall (v : json) (rest : string),
    (Browser.depth v < fuel)%nat -> Browser.endsNumber rest = true -> Browser.distinctKeys v ->
    Browser.value fuel (Browser.stringify v ++ rest) = Some (v, rest).
Proof.
induction fuel as [|f IH]; intros v rest Hdepth Hend Hkeys; [lia|].
destruct v as [|[]|z|s|items|props]; try reflexivity.
- (* number *)
  cbn [Browser.stringify]. unfold Browser.decimal. destruct (z <? 0)%Z eqn:Hz.
  + cbn [append]. rewrite value_minus, digitsOf_app. cbn [append].
    rewrite naturalLit_digits by exact Hend. do 3 f_equal.
    apply Z.ltb_lt in Hz. rewrite N2Z.inj_abs_N. lia.
  + rewrite digitsOf_app. cbn [append].
    assert (Hnat : Z.of_N (Z.abs_N z) = z)
      by (apply Z.ltb_ge in Hz; rewrite N2Z.inj_abs_N; lia).
    destruct (N.eq_dec (Z.abs_N z) 0) as [E|E].
    * rewrite E in *. cbn in Hnat. subst z.
      change (Browser.digitsOf _ 0 rest) with (String (ascii_of_N (48 + 0)) rest).
      rewrite value_digit by reflexivity.
      change (String (ascii_of_N (48 + 0)) rest)
        with (Browser.digitsOf (S (N.to_nat (N.log2 0))) 0 rest).
      now rewrite naturalLit_digits.
    * destruct (digitsOf_head (S (N.to_nat (N.log2 (Z.abs_N z)))) (Z.abs_N z) rest)
        as (d & r & Hd1 & Hd9 & Hhead); [lia | apply enough_digits |].
      pose proof (naturalLit_digits (Z.abs_N z) rest Hend) as Hlit.
      rewrite Hhead in *. rewrite value_digit by exact Hd9. rewrite Hlit.
      now rewrite Hnat.
- (* string *)
  cbn [Browser.stringify]. rewrite quote_parses, value_quote.
  now rewrite stringBody_escape.
- (* array *)
  cbn [Browser.stringify Browser.depth Browser.distinctKeys] in *.
  cbn [append]. rewrite append_assoc. cbn [append]. rewrite value_bracket.
  destruct items as [|x items].
  + reflexivity.
  + assert (Hstart : Browser.startsValue
              (Browser.joinWith "," (map Browser.stringify (x :: items)) ++ String "]" rest)).
    { destruct items as [|y items]; cbn [map].
      - apply startsValue_stringify.
      - rewrite joinWith_more, append_assoc. apply startsValue_stringify. }
    rewrite (skipSpace_startsValue _ Hstart).
    destruct Hstart as (c & r & Heq & _ & Hc & _). rewrite Heq at 1. rewrite Hc.
    rewrite sequence_joinWith; try reflexivity; try discriminate.
    * rewrite length_append. cbn [String.length].
      pose proof (length_joinWith Browser.stringify (x :: items)) as Hlen.
      assert (List.length (x :: items) <=
              String.length (Browser.joinWith "," (map Browser.stringify (x :: items))))%nat.
      { apply Hlen. intros y _. apply startsValue_nonempty, startsValue_stringify. }
      lia.
    * intros y r' Hy Hr'. split; [|apply startsValue_stringify].
      apply IH; [|exact Hr'|now apply distinctKeys_item with (items := x :: items)].
      pose proof (depth_item y (x :: items) Hy). lia.
- (* object *)
  cbn [Browser.stringify Browser.depth Browser.distinctKeys] in *. destruct Hkeys as [Hnodup Hkeys].
  change (fun kv : string * json =>
            Browser.quote (fst kv) ++ ":" ++ Browser.stringify (snd kv)) with Browser.printMember.
  cbn [append]. rewrite append_assoc. cbn [append]. rewrite value_brace.
  destruct props as [|kv props].
  + reflexivity.
  + assert (Hquote : forall kv' r', Browser.startsValue (Browser.printMember kv' ++ r')).
    { intros kv' r'. unfold Browser.printMember. rewrite append_assoc, quote_parses.
      repeat eexists. }
    assert (Hstart : Browser.startsValue
              (Browser.joinWith "," (map Browser.printMember (kv :: props)) ++ String "}" rest)).
    { destruct props as [|kv' props]; cbn [map].
      - apply Hquote.
      - rewrite joinWith_more, append_assoc. apply Hquote. }
    rewrite (skipSpace_startsValue _ Hstart).
    destruct Hstart as (c & r & Heq & _ & _ & Hc). rewrite Heq at 1. rewrite Hc.
    rewrite sequence_joinWith; try reflexivity; try discriminate.
    * now rewrite fold_setProp.
    * rewrite length_append. cbn [String.length].
      pose proof (length_joinWith Browser.printMember (kv :: props)) as Hlen.
      assert (List.length (kv :: props) <=
              String.length (Browser.joinWith "," (map Browser.printMember (kv :: props))))%nat.
      { apply Hlen. intros y _. apply startsValue_nonempty, Hquote. }
      lia.
    * intros y r' Hy Hr'. split; [|apply Hquote].
      apply member_printMember. apply IH; [|exact Hr'|].
      -- pose proof (depth_member y (kv :: props) Hy). lia.
      -- now apply distinctKeys_member with (props := kv :: props).
Qed.

Lemma length_part {A : Type} (print : A -> string) (x : A) (xs : list A) :
  In x xs ->
  (String.length (print x) <= String.length (Browser.joinWith "," (map print xs)))%nat.
Proof.
induction xs as [|y [|z zs] IH]; intros Hin; [contradiction| |].
- destruct Hin as [-> | []]. cbn. lia.
- cbn [map]. rewrite joinWith_more, !length_append.
  destruct Hin as [-> | Hin]; [lia | specialize (IH Hin); cbn [map] in IH; lia].
Qed.

Lemma depth_le_length (n : nat) :
  forall v, (Browser.depth v <= n)%nat ->
            (Browser.depth v <= String.length (Browser.stringify v))%nat.
Proof.
induction n as [|n IH]; intros v Hn.
- lia.
- destruct v as [| | | |items|props]; cbn [Browser.depth] in *; try lia.
  + cbn [Browser.stringify]. rewrite !length_append. cbn [String.length].
    assert (fold_right (fun x d => Nat.max (Browser.depth x) d) O items <=
            String.length (Browser.joinWith "," (map Browser.stringify items)))%nat; [|lia].
    assert (Hall : forall x, In x items ->
              (Browser.depth x <=
               String.length (Browser.joinWith "," (map Browser.stringify items)))%nat).
    { intros x Hx. pose proof (depth_item x items Hx).
      pose proof (length_part Browser.stringify x items Hx).
      assert (Browser.depth x <= String.length (Browser.stringify x))%nat by (apply IH; lia). lia. }
    clear - Hall. revert Hall.
    generalize (String.length (Browser.joinWith "," (map Browser.stringify items))).
    induction items as [|x items IHi]; intros m Hall; cbn [fold_right]; [lia|].
    apply Nat.max_lub; [apply Hall; now left | apply IHi; intros y Hy; apply Hall; now right].
  + cbn [Browser.stringify].
    change (fun kv : string * json =>
              Browser.quote (fst kv) ++ ":" ++ Browser.stringify (snd kv)) with Browser.printMember.
    rewrite !length_append. cbn [String.length].
    assert (fold_right (fun kv d => Nat.max (Browser.depth (snd kv)) d) O props <=
            String.length (Browser.joinWith "," (map Browser.printMember props)))%nat; [|lia].
    assert (Hall : forall kv, In kv props ->
              (Browser.depth (snd kv) <=
               String.length (Browser.joinWith "," (map Browser.printMember props)))%nat).
    { intros kv Hkv. pose proof (depth_member kv props Hkv).
      pose proof (length_part Browser.printMember kv props Hkv) as Hpart.
      assert (Browser.depth (snd kv) <= String.length (Browser.stringify (snd kv)))%nat
        by (apply IH; lia).
      unfold Browser.printMember in Hpart at 1. rewrite !length_append in Hpart. lia. }
    clear - Hall. revert Hall.
    generalize (String.length (Browser.joinWith "," (map Browser.printMember props))).
    induction props as [|x props IHi]; intros m Hall; cbn [fold_right]; [lia|].
    apply Nat.max_lub; [apply Hall; now left | apply IHi; intros y Hy; apply Hall; now right].
Qed.

(** [parse] after [stringify] is the identity on the values in which
    no object repeats a property name. *)
Theorem parse_stringify (v : json) :
  Browser.distinctKeys v -> Browser.parse (Browser.stringify v) = Some v.
Proof.
intros Hkeys. unfold Browser.parse.
pose proof (startsValue_stringify v "") as Hstart. rewrite append_empty in Hstart.
rewrite (skipSpace_startsValue _ Hstart).
rewrite <- (append_empty (Browser.stringify v)) at 2.
rewrite value_stringify; [reflexivity | | reflexivity | exact Hkeys].
pose proof (depth_le_length (Browser.depth v) v (Nat.le_refl _)). lia.
Qed.

Lemma distinctKeys_dataJson (d : string) (hs : list Habit) :
  Browser.distinctKeys (dataJson d hs).
Proof.
cbn. split.
- repeat constructor; cbn; intuition discriminate.
- split; [exact I|]. split; [|exact I].
  induction hs as [|h hs IH]; cbn; [exact I|]. split; [|exact IH]. split.
  + repeat constructor; cbn; intuition discriminate.
  + tauto.
Qed.

(** Every snapshot [saveData] can write survives the concrete host. *)
Theorem browser_survives (d : string) (hs : list Habit) :
  survives (host := Browser.host) (dataJson d hs).
Proof.
split; cbn [JSON_stringify JSON_parse Browser.host].
- discriminate.
- apply parse_stringify, distinctKeys_dataJson.
Qed.

(** With the concrete host no assumption is left: whatever the page
    and the date, what [saveData] wrote is read back by [loadData]. *)
Lemma browser_save_then_load (today : string) (s s0 : State) :
  localStorage s0 = localStorage (saveData (host := Browser.host) today s) ->
  loadData (host := Browser.host) s0 =
  Ok (calculatePoints (set_habits (habits s) s0)) /\
  storedLastVisitDate (host := Browser.host) s0 today.
Proof.
intros Hslot. destruct (browser_survives today (habits s)) as [Hne Hparse].
rewrite localStorage_saveData in Hslot. split.
- now apply (loadData_snapshot (host := Browser.host))
    with (txt := Browser.stringify (dataJson today (habits s))) (d := today).
- now apply (storedLastVisitDate_snapshot (host := Browser.host))
    with (txt := Browser.stringify (dataJson today (habits s))) (hs := habits s).
Qed.

(** [save_then_load] on the example page, saved on Tuesday and read by
    a page just opened. *)
Lemma save_then_load_witness :
  exists s', loadData (host := Browser.host)
               (mkState [] 0
                  (localStorage (saveData (host := Browser.host) Example.tuesday
                                   (Example.page "" "")))
                  "" "" 0 [] false []) = Ok s' /\
             habits s' = [Example.read; Example.exercise] /\
             storedLastVisitDate (host := Browser.host) s' Example.tuesday.
Proof.
apply (save_then_load (host := Browser.host) Example.tuesday (Example.page "" "")).
- split; [vm_compute; discriminate | vm_compute; reflexivity].
- reflexivity.
Defined.

(** ** The daily reset *)

Section DailyReset.
Context {host : Host}.

Lemma completed_after_reset (hs : list Habit) :
  Forall (fun h => completed h = false) (map (setCompleted false) hs).
Proof. induction hs; cbn; constructor; auto. Qed.

Lemma checkDailyReset_parsed (today txt : string) (v : json) (o : option json) (s : State) :
  localStorage s = Some txt -> txt <> "" -> JSON_parse txt = Some v ->
  getProp v "lastVisitDate" = Ok o ->
  checkDailyReset today s =
  if strictEqString o today then Ok s
  else Ok (alert newDayMessage
             (saveData today (set_habits (map (setCompleted false) (habits s)) s))).
Proof.
intros Hslot Hne Hparse Hprop. unfold checkDailyReset. rewrite Hslot.
destruct (txt =? "") eqn:E; [apply String.eqb_eq in E; contradiction|].
rewrite Hparse, Hprop. cbn [bind]. now destruct (strictEqString o today).
Qed.

(** C2 (as amended): with the storage entry holding the date [d] as
    [lastVisitDate], when [d] is today's date the call changes
    nothing at all (no alert); when it is another date the call ends
    with every habit not completed (the list is otherwise the same),
    with the snapshot of that list stamped with today's date written
    to the storage entry, and with the alert "It's a new day! ..."
    raised; and where the host reads that snapshot back, the stored
    date now is today's and a second call changes nothing.  In both
    cases the call itself evaluates to [undefined]: the function
    returns no value, and whether it reset the habits shows in the
    alert and in the state only. *)
Theorem checkDailyReset_outcomes (today d : string) (s : State) :
  storedLastVisitDate s d ->
  checkDailyReset_result today s = Ok None /\
  (d = today -> checkDailyReset today s = Ok s) /\
  (d <> today ->
   exists s',
     checkDailyReset today s = Ok s' /\
     habits s' = map (setCompleted false) (habits s) /\
     Forall (fun h => completed h = false) (habits s') /\
     localStorage s' = Some (JSON_stringify (dataJson today (habits s'))) /\
     alerts s' = (alerts s ++ [newDayMessage])%list /\
     (survives (dataJson today (habits s')) ->
      storedLastVisitDate s' today /\ checkDailyReset today s' = Ok s')).
Proof.
intros (txt & v & Hslot & Hne & Hparse & Hprop).
pose proof (checkDailyReset_parsed today txt v _ s Hslot Hne Hparse Hprop) as Hrun.
cbn [strictEqString] in Hrun. split; [|split].
- unfold checkDailyReset_result. rewrite Hrun. now destruct (d =? today).
- intros ->. now rewrite String.eqb_refl in Hrun.
- intros Hdiff. apply String.eqb_neq in Hdiff. rewrite Hdiff in Hrun.
  eexists. split; [exact Hrun|].
  split; [reflexivity|]. split; [apply completed_after_reset|].
  split; [reflexivity|]. split; [reflexivity|].
  intros [Hne' Hparse']. split.
  + eapply storedLastVisitDate_snapshot; [reflexivity | exact Hne' | exact Hparse'].
  + erewrite checkDailyReset_parsed with (o := Some (JStr today));
      [| reflexivity | exact Hne' | exact Hparse' | reflexivity].
    cbn [strictEqString]. now rewrite String.eqb_refl.
Qed.

End DailyReset.

(** The entry of the example page holds Monday's date. *)
Lemma example_saved_on_monday :
  storedLastVisitDate (host := Browser.host) (Example.page "" "") Example.monday.
Proof.
eexists. eexists.
split; [reflexivity|]. split; [vm_compute; discriminate|].
split; [vm_compute; reflexivity | reflexivity].
Qed.

(** [checkDailyReset_outcomes] on the example page, saved on Monday:
    nothing happens on Monday, and on Tuesday [read] is unticked; the
    call evaluates to [undefined] on both days. *)
Lemma checkDailyReset_outcomes_witness :
  checkDailyReset (host := Browser.host) Example.monday (Example.page "" "") =
  Ok (Example.page "" "") /\
  checkDailyReset_result (host := Browser.host) Example.monday (Example.page "" "") =
  Ok None /\
  checkDailyReset_result (host := Browser.host) Example.tuesday (Example.page "" "") =
  Ok None /\
  exists s', checkDailyReset (host := Browser.host) Example.tuesday (Example.page "" "") = Ok s' /\
             habits s' = [setCompleted false Example.read; Example.exercise] /\
             alerts s' = [newDayMessage].
Proof.
destruct (checkDailyReset_outcomes (host := Browser.host) Example.monday Example.monday
            (Example.page "" "") example_saved_on_monday) as (Hvalue & Hsame & _).
destruct (checkDailyReset_outcomes (host := Browser.host) Example.tuesday Example.monday
            (Example.page "" "") example_saved_on_monday) as (Hvalue' & _ & Hreset).
split; [apply Hsame; reflexivity|]. split; [exact Hvalue|]. split; [exact Hvalue'|].
destruct Hreset as (s' & Hrun & Hhabits & _ & _ & Halerts & _); [discriminate|].
exists s'. repeat split; assumption.
Defined.

(** C2, as the spec states it, fails: on the example page, saved on
    Monday, the call made on Tuesday resets the habits and does not
    evaluate to [true], and the call made on Monday does not evaluate
    to [false]. *)
Lemma checkDailyReset_returns_no_boolean :
  ~ returnsWhetherReset (host := Browser.host) Example.tuesday (Example.page "" "") /\
  ~ returnsWhetherReset (host := Browser.host) Example.monday (Example.page "" "").
Proof.
split; intros Hreturns;
  specialize (Hreturns Example.monday example_saved_on_monday);
  vm_compute in Hreturns; discriminate.
Qed.

(** ** The points follow the list *)

Section Points.
Context {host : Host}.

Lemma pointsAgree_frame (s s' : State) :
  habits s' = habits s -> totalPoints s' = totalPoints s -> pointsAgree s -> pointsAgree s'.
Proof. unfold pointsAgree. intros -> ->. auto. Qed.

Lemma pointsAgree_calculatePoints (s : State) : pointsAgree (calculatePoints s).
Proof.
unfold pointsAgree, calculatePoints, POINTS_PER_HABIT.
cbn [totalPoints habits set_totalPoints]. lia.
Qed.

Lemma pointsAgree_saveData (today : string) (s : State) : pointsAgree (saveData today s).
Proof.
unfold pointsAgree. rewrite totalPoints_saveData, habits_saveData.
unfold POINTS_PER_HABIT. lia.
Qed.

Lemma pointsAgree_renderHabits (s : State) : pointsAgree s -> pointsAgree (renderHabits s).
Proof.
apply pointsAgree_frame; [apply habits_renderHabits | apply totalPoints_renderHabits].
Qed.

Lemma pointsAgree_addHabit (now : Z) (today : string) (s : State) :
  pointsAgree s -> pointsAgree (addHabit now today s).
Proof.
intros Hs. unfold addHabit.
destruct (Str.trim (habitNameInput s) =? ""); [exact Hs|].
destruct (existsb _ (habits s)); [exact Hs|].
apply pointsAgree_frame with (s := renderHabits (saveData today
         (set_habits (habits s ++ [mkHabit now (Str.trim (habitNameInput s))
            (if habitTimeInput s =? "" then "Anytime" else habitTimeInput s) false]) s)));
  [reflexivity | reflexivity |].
apply pointsAgree_renderHabits, pointsAgree_saveData.
Qed.

Lemma pointsAgree_toggleHabit (today : string) (i : Z) (s : State) :
  pointsAgree s -> pointsAgree (toggleHabit today i s).
Proof.
intros Hs. unfold toggleHabit. destruct (find _ (habits s)); [|exact Hs].
apply pointsAgree_renderHabits, pointsAgree_saveData.
Qed.

Lemma pointsAgree_deleteHabit (today : string) (confirmed : bool) (i : Z) (s : State) :
  pointsAgree s -> pointsAgree (deleteHabit today confirmed i s).
Proof.
intros Hs. unfold deleteHabit. destruct confirmed; [|exact Hs].
apply pointsAgree_renderHabits, pointsAgree_saveData.
Qed.

Lemma pointsAgree_checkDailyReset (today : string) (s s' : State) :
  checkDailyReset today s = Ok s' -> pointsAgree s -> pointsAgree s'.
Proof.
intros Hrun Hs. destruct (checkDailyReset_inv today s s' Hrun) as [-> | ->]; [exact Hs|].
apply pointsAgree_frame with (s := saveData today
        (set_habits (map (setCompleted false) (habits s)) s)); [reflexivity | reflexivity |].
apply pointsAgree_saveData.
Qed.

Lemma pointsAgree_loadData (s s' : State) :
  loadData s = Ok s' -> pointsAgree s -> pointsAgree s'.
Proof.
intros Hrun Hs.
destruct (loadData_inv s s' Hrun) as [[_ ->] | (txt & v & o & hs & _ & _ & _ & _ & ->)];
  [exact Hs | apply pointsAgree_calculatePoints].
Qed.

Lemma pointsAgree_step (s s' : State) : step s s' -> pointsAgree s -> pointsAgree s'.
Proof.
intros Hstep Hs. destruct Hstep.
- exact Hs.
- now apply pointsAgree_addHabit.
- now apply pointsAgree_toggleHabit.
- now apply pointsAgree_deleteHabit.
- eapply pointsAgree_checkDailyReset; eauto.
- eapply pointsAgree_loadData; eauto.
- apply pointsAgree_saveData.
- now apply pointsAgree_renderHabits.
- exact Hs.
Qed.

(** C3: in every state the page can reach from its initial one by the
    script's functions (adding, toggling, deleting, the daily reset,
    loading, saving, and the rendering functions) and by the user
    editing the inputs, [totalPoints] is ten times the number of
    habits whose [completed] flag is set. *)
Theorem totalPoints_invariant (s : State) :
  reachable s -> totalPoints s = 10 * Z.of_nat (List.length (filter completed (habits s))).
Proof.
intros Hreach. change (pointsAgree s).
induction Hreach as [s [Hhabits [Hpoints _]] | s s' _ IH Hstep].
- unfold pointsAgree. now rewrite Hhabits, Hpoints.
- now apply pointsAgree_step with (s := s).
Qed.

End Points.

(** [totalPoints_invariant] after two habits were added on a fresh page
    and the first one was ticked: ten points. *)
Lemma totalPoints_invariant_witness :
  totalPoints
    (toggleHabit (host := Browser.host) Example.monday 1793600000000
       (addHabit (host := Browser.host) 1793600060000 Example.monday
          (set_inputs "Exercise" ""
             (addHabit (host := Browser.host) 1793600000000 Example.monday
                (set_inputs "Read" "07:00"
                   (mkState [] 0 None "" "" 0 [] false [])))))) = 10.
Proof.
rewrite (totalPoints_invariant (host := Browser.host)).
- reflexivity.
- eapply reach_step; [|apply step_toggle].
  eapply reach_step; [|apply step_add].
  eapply reach_step; [|apply step_input].
  eapply reach_step; [|apply step_add].
  eapply reach_step; [|apply step_input].
  apply reach_initial. repeat split.
Defined.

(** ** Loading *)

Section Loading.
Context {host : Host}.

Lemma localStorage_loadData (s s' : State) :
  loadData s = Ok s' -> localStorage s' = localStorage s.
Proof.
intros Hrun.
now destruct (loadData_inv s s' Hrun) as [[_ ->] | (txt & v & o & hs & _ & _ & _ & _ & ->)].
Qed.



End Loading.



(** ** Toggling and deleting *)

Lemma setCompleted_twice (h : Habit) :
  setCompleted (negb (completed (setCompleted (negb (completed h)) h)))
               (setCompleted (negb (completed h)) h) = h.
Proof. destruct h as [i n t c]. cbn. now rewrite negb_involutive. Qed.

Lemma flipFound_twice (i : Z) (hs : list Habit) : flipFound i (flipFound i hs) = hs.
Proof.
induction hs as [|h hs IH]; [reflexivity|]. cbn [flipFound].
destruct (id h =? i)%Z eqn:E; cbn [flipFound].
- change (id (setCompleted (negb (completed h)) h)) with (id h).
  rewrite E. now rewrite setCompleted_twice.
- now rewrite E, IH.
Qed.

Lemma find_absent (i : Z) (hs : list Habit) :
  (forall h, In h hs -> id h <> i) -> find (fun h => (id h =? i)%Z) hs = None.
Proof.
intros Habs. destruct (find _ hs) as [h|] eqn:F; [|reflexivity].
apply find_some in F as [Hin Heq]. apply Z.eqb_eq in Heq. now apply Habs in Hin.
Qed.

Lemma find_present (i : Z) (hs : list Habit) :
  (exists h, In h hs /\ id h = i) -> exists h, find (fun h => (id h =? i)%Z) hs = Some h.
Proof.
intros [h [Hin Hid]]. destruct (find _ hs) as [h'|] eqn:F; [now exists h'|].
apply find_none with (x := h) in F; [|exact Hin]. apply Z.eqb_neq in F. contradiction.
Qed.

Lemma find_flipFound (i : Z) (hs : list Habit) :
  find (fun h => (id h =? i)%Z) (flipFound i hs) =
  option_map (fun h => setCompleted (negb (completed h)) h)
             (find (fun h => (id h =? i)%Z) hs).
Proof.
induction hs as [|h hs IH]; [reflexivity|]. cbn [flipFound find].
destruct (id h =? i)%Z eqn:E; cbn [find].
- change (id (setCompleted (negb (completed h)) h)) with (id h). now rewrite E.
- now rewrite E.
Qed.

Lemma filter_absent (i : Z) (hs : list Habit) :
  (forall h, In h hs -> id h <> i) -> filter (fun h => negb (id h =? i)%Z) hs = hs.
Proof.
induction hs as [|h hs IH]; intros Habs; [reflexivity|]. cbn [filter].
assert (E : (id h =? i)%Z = false) by (apply Z.eqb_neq, Habs; now left).
rewrite E. cbn [negb]. f_equal. apply IH. intros h' Hin. apply Habs. now right.
Qed.

(** The first habit with the id [i] splits the list; [flipFound]
    changes that habit's flag and nothing else. *)
Lemma flipFound_split (i : Z) (hs : list Habit) (h : Habit) :
  find (fun h => (id h =? i)%Z) hs = Some h ->
  exists before after,
    hs = (before ++ h :: after)%list /\
    (forall h', In h' before -> id h' <> i) /\
    flipFound i hs = (before ++ setCompleted (negb (completed h)) h :: after)%list.
Proof.
induction hs as [|h0 hs IH]; [discriminate|]. cbn [find flipFound].
destruct (id h0 =? i)%Z eqn:E.
- intros [= <-]. exists [], hs. repeat split. intros h' [].
- intros F. destruct (IH F) as (before & after & Hsplit & Hbefore & Hflip).
  exists (h0 :: before), after. split; [|split].
  + cbn. now rewrite Hsplit.
  + intros h' [<- | Hin]; [now apply Z.eqb_neq | now apply Hbefore].
  + cbn. now rewrite Hflip.
Qed.

Section Toggle.
Context {host : Host}.

Lemma habits_toggleHabit (today : string) (i : Z) (s : State) (h : Habit) :
  find (fun h => (id h =? i)%Z) (habits s) = Some h ->
  habits (toggleHabit today i s) = flipFound i (habits s).
Proof. intros F. unfold toggleHabit. rewrite F. now rewrite habits_renderHabits. Qed.

(** C8: when some habit has the id [i], toggling [i] twice (on
    whatever days) gives back the list as it was; in particular the
    habit the id designates, the one [find] returns, has its flag
    negated after the first call and is itself again after the
    second. *)
Theorem toggleHabit_twice (today1 today2 : string) (i : Z) (s : State) :
  (exists h, In h (habits s) /\ id h = i) ->
  let s1 := toggleHabit today1 i s in
  let s2 := toggleHabit today2 i s1 in
  habits s2 = habits s /\
  exists h,
    find (fun h => (id h =? i)%Z) (habits s) = Some h /\
    find (fun h => (id h =? i)%Z) (habits s1) =
    Some (setCompleted (negb (completed h)) h) /\
    find (fun h => (id h =? i)%Z) (habits s2) = Some h.
Proof.
intros Hpresent s1 s2. destruct (find_present i (habits s) Hpresent) as [h F].
assert (H1 : habits s1 = flipFound i (habits s)) by now apply habits_toggleHabit with (h := h).
assert (F1 : find (fun h => (id h =? i)%Z) (habits s1) =
             Some (setCompleted (negb (completed h)) h)).
{ rewrite H1, find_flipFound, F. reflexivity. }
assert (H2 : habits s2 = habits s).
{ unfold s2. rewrite habits_toggleHabit with (h := setCompleted (negb (completed h)) h)
    by exact F1.
  rewrite H1. apply flipFound_twice. }
split; [exact H2|]. exists h. repeat split; [exact F | exact F1 | now rewrite H2].
Qed.

(** C10: when some habit has the id [i], [toggleHabit] changes the
    [completed] flag of the first habit with that id, the one [find]
    returns, and nothing else in the list: that habit keeps its id,
    name and time, the habits before and after it are the same, and
    so are the length and the order of the list. *)
Theorem toggleHabit_frame (today : string) (i : Z) (s : State) :
  (exists h, In h (habits s) /\ id h = i) ->
  exists before h after,
    habits s = (before ++ h :: after)%list /\
    id h = i /\ (forall h', In h' before -> id h' <> i) /\
    habits (toggleHabit today i s) =
    (before ++ mkHabit (id h) (name h) (time h) (negb (completed h)) :: after)%list /\
    List.length (habits (toggleHabit today i s)) = List.length (habits s).
Proof.
intros Hpresent. destruct (find_present i (habits s) Hpresent) as [h F].
destruct (flipFound_split i (habits s) h F) as (before & after & Hsplit & Hbefore & Hflip).
exists before, h, after. split; [exact Hsplit|]. split; [|split; [exact Hbefore|]].
- apply find_some in F as [_ Heq]. now apply Z.eqb_eq.
- rewrite (habits_toggleHabit today i s h F), Hflip. split; [reflexivity|].
  rewrite Hsplit, !length_app. reflexivity.
Qed.

(** C9 (as amended): when no habit has the id [i], [toggleHabit] does
    nothing at all, and so does a [deleteHabit] the user did not
    confirm.  A [deleteHabit] the user confirmed leaves the habit
    list as it is and still runs [saveData] and [renderHabits]: it is
    the state those two give on the untouched list, so the storage
    entry is rewritten with the snapshot of that same list stamped
    with the day of the call (the habits it holds are the same, the
    date need not be, and an entry is created where there was none),
    and [totalPoints], recomputed from the same list, keeps its value
    on a page where it agreed with the list. *)
Theorem absent_id_changes_nothing (today : string) (confirmed : bool) (i : Z) (s : State) :
  (forall h, In h (habits s) -> id h <> i) ->
  toggleHabit today i s = s /\
  habits (deleteHabit today confirmed i s) = habits s /\
  (confirmed = false -> deleteHabit today confirmed i s = s) /\
  (confirmed = true ->
   deleteHabit today confirmed i s = renderHabits (saveData today s) /\
   localStorage (deleteHabit today confirmed i s) =
   Some (JSON_stringify (dataJson today (habits s))) /\
   (pointsAgree s -> totalPoints (deleteHabit today confirmed i s) = totalPoints s) /\
   (storedHabits s (habits s) -> survives (dataJson today (habits s)) ->
    storedHabits (deleteHabit today confirmed i s) (habits s)) /\
   (survives (dataJson today (habits s)) ->
    storedLastVisitDate (deleteHabit today confirmed i s) today)).
Proof.
intros Habs. split; [|split; [|split]].
- unfold toggleHabit. now rewrite find_absent.
- unfold deleteHabit. destruct confirmed; [|reflexivity].
  rewrite habits_renderHabits, habits_saveData. cbn [habits set_habits].
  now apply filter_absent.
- intros ->. reflexivity.
- intros ->. unfold deleteHabit.
  assert (Hsame : set_habits (filter (fun h => negb (id h =? i)%Z) (habits s)) s = s).
  { rewrite (filter_absent i (habits s) Habs). apply set_habits_same. }
  cbv zeta. rewrite Hsame.
  assert (Hslot : localStorage (renderHabits (saveData today s)) =
                  Some (JSON_stringify (dataJson today (habits s)))).
  { now rewrite localStorage_renderHabits, localStorage_saveData. }
  split; [reflexivity|]. split; [exact Hslot|]. split; [|split].
  + intros Hagree. rewrite totalPoints_renderHabits, totalPoints_saveData.
    rewrite Hagree. unfold POINTS_PER_HABIT. lia.
  + intros _ [Hne Hparse].
    exists (JSON_stringify (dataJson today (habits s))), today. now repeat split.
  + intros [Hne Hparse].
    eapply storedLastVisitDate_snapshot; [exact Hslot | exact Hne | exact Hparse].
Qed.

End Toggle.

(** [toggleHabit_twice] on the example page, for the id of [read]. *)
Lemma toggleHabit_twice_witness :
  habits (toggleHabit (host := Browser.host) Example.tuesday (id Example.read)
            (toggleHabit (host := Browser.host) Example.monday (id Example.read)
               (Example.page "" ""))) = [Example.read; Example.exercise].
Proof.
destruct (toggleHabit_twice (host := Browser.host) Example.monday Example.tuesday
            (id Example.read) (Example.page "" "")) as [Hback _].
- exists Example.read. split; [left; reflexivity | reflexivity].
- exact Hback.
Defined.

(** [toggleHabit_frame] on the example page, for the id of [exercise]. *)
Lemma toggleHabit_frame_witness :
  exists before h after,
    habits (Example.page "" "") = (before ++ h :: after)%list /\
    id h = id Example.exercise /\
    (forall h', In h' before -> id h' <> id Example.exercise) /\
    habits (toggleHabit (host := Browser.host) Example.monday (id Example.exercise)
              (Example.page "" "")) =
    (before ++ mkHabit (id h) (name h) (time h) (negb (completed h)) :: after)%list /\
    List.length (habits (toggleHabit (host := Browser.host) Example.monday
                           (id Example.exercise) (Example.page "" ""))) =
    List.length (habits (Example.page "" "")).
Proof.
apply (toggleHabit_frame (host := Browser.host) Example.monday (id Example.exercise)
         (Example.page "" "")).
exists Example.exercise. split; [right; left; reflexivity | reflexivity].
Defined.

(** [absent_id_changes_nothing] on the example page, for an id no
    habit has. *)
Lemma absent_id_changes_nothing_witness :
  toggleHabit (host := Browser.host) Example.tuesday 7 (Example.page "" "") =
  Example.page "" "" /\
  habits (deleteHabit (host := Browser.host) Example.tuesday true 7 (Example.page "" "")) =
  [Example.read; Example.exercise] /\
  storedLastVisitDate (host := Browser.host)
    (deleteHabit (host := Browser.host) Example.tuesday true 7 (Example.page "" ""))
    Example.tuesday.
Proof.
destruct (absent_id_changes_nothing (host := Browser.host) Example.tuesday true 7
            (Example.page "" "")) as (Htoggle & Hdelete & _ & Hsaved).
- intros h [<- | [<- | []]]; discriminate.
- split; [exact Htoggle|]. split; [exact Hdelete|].
  destruct (Hsaved eq_refl) as (_ & _ & _ & _ & Hdate).
  apply Hdate. apply browser_survives.
Defined.

(** C9, as the spec states it, fails: on the example page, saved on
    Monday, deleting on Tuesday an id no habit has rewrites the
    storage entry, which then holds Tuesday's date; and on a page
    that never saved, it creates the entry. *)
Lemma deleteHabit_absent_id_rewrites_storage :
  ~ noOpOnAbsentId (host := Browser.host) Example.tuesday true 7 (Example.page "" "") /\
  ~ noOpOnAbsentId (host := Browser.host) Example.tuesday true 7 (opened None).
Proof.
split; intros Hnoop.
- destruct Hnoop as (_ & _ & Hslot).
  + intros h [<- | [<- | []]]; discriminate.
  + vm_compute in Hslot. discriminate.
- destruct Hnoop as (_ & _ & Hslot).
  + intros h [].
  + vm_compute in Hslot. discriminate.
Qed.

(** ** The display order *)

Section SortFacts.
Context {A : Type} (cmp : A -> A -> Z).

Lemma insertSorted_permutation (x : A) (l : list A) :
  Permutation (insertSorted cmp x l) (x :: l).
Proof.
induction l as [|y l IH]; cbn [insertSorted]; [reflexivity|].
destruct (cmp x y <=? 0)%Z; [reflexivity|].
rewrite IH. apply perm_swap.
Qed.

Lemma sort_permutation (l : list A) : Permutation (sort cmp l) l.
Proof.
induction l as [|x l IH]; cbn [sort]; [reflexivity|].
rewrite insertSorted_permutation. now constructor.
Qed.

Hypothesis cmp_total : forall a b, cmp a b <= 0 \/ cmp b a <= 0.
Hypothesis cmp_trans : forall a b c, cmp a b <= 0 -> cmp b c <= 0 -> cmp a c <= 0.

Lemma insertSorted_sorted (x : A) (l : list A) :
  StronglySorted (fun a b => cmp a b <= 0) l ->
  StronglySorted (fun a b => cmp a b <= 0) (insertSorted cmp x l).
Proof.
induction l as [|y l IH]; intros Hsorted; cbn [insertSorted].
- repeat constructor.
- apply StronglySorted_inv in Hsorted as [Hl Hy].
  destruct (cmp x y <=? 0)%Z eqn:E.
  + apply Z.leb_le in E. constructor; [now constructor|].
    constructor; [exact E|].
    eapply Forall_impl; [|exact Hy]. intros z Hyz. now apply cmp_trans with (b := y).
  + apply Z.leb_gt in E. constructor; [now apply IH|].
    eapply Permutation_Forall; [symmetry; apply insertSorted_permutation|].
    constructor; [|exact Hy]. destruct (cmp_total x y); [lia | assumption].
Qed.

Lemma sort_sorted (l : list A) : StronglySorted (fun a b => cmp a b <= 0) (sort cmp l).
Proof.
induction l as [|x l IH]; cbn [sort]; [constructor | now apply insertSorted_sorted].
Qed.

End SortFacts.

Lemma StronglySorted_weaken {A : Type} (R R' : A -> A -> Prop) (l : list A) :
  (forall a b, In a l -> In b l -> R a b -> R' a b) ->
  StronglySorted R l -> StronglySorted R' l.
Proof.
induction l as [|x l IH]; intros Himp Hsorted; [constructor|].
apply StronglySorted_inv in Hsorted as [Hl Hx]. constructor.
- apply IH; [|exact Hl]. intros a b Ha Hb. apply Himp; now right.
- rewrite Forall_forall in *. intros y Hy. apply Himp; [now left | now right | now apply Hx].
Qed.

Section DisplayOrder.
Context {host : Host}.

Lemma compareHabits_shownBefore (a b : Habit) : compareHabits a b <= 0 <-> shownBefore a b.
Proof.
unfold compareHabits, shownBefore.
destruct (completed a), (completed b); cbn [Bool.eqb]; intuition (try discriminate; try lia).
Qed.

Hypothesis consistent : ConsistentCollation.

Lemma compareHabits_total (a b : Habit) : compareHabits a b <= 0 \/ compareHabits b a <= 0.
Proof.
unfold compareHabits.
destruct (completed a), (completed b); cbn [Bool.eqb];
  try apply (collation_total consistent); lia.
Qed.

Lemma compareHabits_trans (a b c : Habit) :
  compareHabits a b <= 0 -> compareHabits b c <= 0 -> compareHabits a c <= 0.
Proof.
unfold compareHabits.
destruct (completed a), (completed b), (completed c); cbn [Bool.eqb];
  try apply (collation_trans consistent); lia.
Qed.

Lemma sortedHabits_shownBefore (hs : list Habit) :
  StronglySorted shownBefore (sortedHabits hs).
Proof.
apply StronglySorted_weaken with (R := fun a b => compareHabits a b <= 0).
- intros a b _ _. apply compareHabits_shownBefore.
- apply sort_sorted; [exact compareHabits_total | exact compareHabits_trans].
Qed.

(** C6: provided the habits have the times of the data model
    (["Anytime"] or a time [HH:MM]) and the host's [localeCompare] is
    a consistent ordering that goes with the code units on those
    times, the cards [renderHabits] appends are the habit list
    rearranged: a permutation of it in which every habit not
    completed stands before every completed one and, within each of
    the two groups, the times ascend in the order of the code units,
    the raw string order (["Anytime"] taken like any other string,
    so after every [HH:MM]).  The list [habits] itself is left as it
    is. *)
Theorem renderHabits_order (s : State) :
  CollatesTimesByCodeUnits ->
  Forall (fun h => pageTime (time h)) (habits s) ->
  habitsList (renderHabits s) = sortedHabits (habits s) /\
  Permutation (habitsList (renderHabits s)) (habits s) /\
  StronglySorted shownBeforeByCodeUnits (habitsList (renderHabits s)) /\
  habits (renderHabits s) = habits s.
Proof.
intros Hagree Htimes. rewrite Forall_forall in Htimes.
assert (Hshown : habitsList (renderHabits s) = sortedHabits (habits s))
  by (unfold renderHabits; destruct (habits s); reflexivity).
rewrite Hshown. split; [reflexivity|]. split; [apply sort_permutation|]. split.
- apply StronglySorted_weaken with (R := shownBefore).
  + intros a b Ha Hb [Hgroups | [Hsame Hle]]; [now left | right].
    split; [exact Hsame|].
    apply Hagree; [| |exact Hle]; apply Htimes;
      eapply Permutation_in; try apply sort_permutation; eassumption.
  + apply sortedHabits_shownBefore.
- apply habits_renderHabits.
Qed.

End DisplayOrder.

(** *** The collation of the concrete host is a consistent ordering *)

Lemma ascii_compare_refl (c : ascii) : Ascii.compare c c = Eq.
Proof. apply N.compare_refl. Qed.

Lemma string_compare_refl (s : string) : String.compare s s = Eq.
Proof. induction s as [|c s IH]; cbn; [reflexivity | now rewrite ascii_compare_refl]. Qed.

Lemma string_compare_lt_trans (a b c : string) :
  String.compare a b = Lt -> String.compare b c = Lt -> String.compare a c = Lt.
Proof.
revert b c. induction a as [|x a IH]; intros [|y b] [|z c]; cbn; try discriminate; auto.
unfold Ascii.compare.
destruct (N.compare_spec (N_of_ascii x) (N_of_ascii y)) as [Exy|Lxy|Gxy]; try discriminate;
  destruct (N.compare_spec (N_of_ascii y) (N_of_ascii z)) as [Eyz|Lyz|Gyz]; try discriminate;
  intros Hab Hbc.
- rewrite Exy, Eyz, N.compare_refl. now apply IH with (b := b).
- rewrite Exy. apply N.compare_lt_iff in Lyz. now rewrite Lyz.
- rewrite <- Eyz. apply N.compare_lt_iff in Lxy. now rewrite Lxy.
- assert (Lxz : (N_of_ascii x < N_of_ascii z)%N)
    by now apply N.lt_trans with (m := N_of_ascii y).
  apply N.compare_lt_iff in Lxz. now rewrite Lxz.
Qed.

Lemma string_compare_le_trans (a b c : string) :
  String.compare a b <> Gt -> String.compare b c <> Gt -> String.compare a c <> Gt.
Proof.
intros Hab Hbc.
destruct (String.compare a b) eqn:Eab; [| |contradiction].
- apply String.compare_eq_iff in Eab. now subst b.
- destruct (String.compare b c) eqn:Ebc; [| |contradiction].
  + apply String.compare_eq_iff in Ebc. subst c. now rewrite Eab.
  + now rewrite (string_compare_lt_trans a b c Eab Ebc).
Qed.

Lemma collate_le (a b : string) :
  Browser.collate a b <= 0 <->
  String.compare (Browser.primaryKey a) (Browser.primaryKey b) = Lt \/
  (String.compare (Browser.primaryKey a) (Browser.primaryKey b) = Eq /\
   String.compare (Browser.swapCase a) (Browser.swapCase b) <> Gt).
Proof.
unfold Browser.collate.
destruct (String.compare (Browser.primaryKey a) (Browser.primaryKey b));
  [destruct (String.compare (Browser.swapCase a) (Browser.swapCase b))| |];
  cbn [Browser.signOf]; intuition (try discriminate; try lia).
Qed.

Lemma collate_consistent : ConsistentCollation (host := Browser.host).
Proof.
split; cbn [localeCompare Browser.host].
- intros a b. rewrite !collate_le.
  rewrite (String.compare_antisym (Browser.primaryKey a) (Browser.primaryKey b)).
  rewrite (String.compare_antisym (Browser.swapCase a) (Browser.swapCase b)).
  destruct (String.compare (Browser.primaryKey b) (Browser.primaryKey a));
    destruct (String.compare (Browser.swapCase b) (Browser.swapCase a));
    cbn [CompOpp]; intuition (try discriminate).
- intros a b c. rewrite !collate_le. intros [Lab | [Eab Sab]] [Lbc | [Ebc Sbc]].
  + left. now apply string_compare_lt_trans with (b := Browser.primaryKey b).
  + left. apply String.compare_eq_iff in Ebc. now rewrite <- Ebc.
  + left. apply String.compare_eq_iff in Eab. now rewrite Eab.
  + right. apply String.compare_eq_iff in Eab. apply String.compare_eq_iff in Ebc.
    rewrite Eab, Ebc, string_compare_refl. split; [reflexivity|].
    now apply string_compare_le_trans with (b := Browser.swapCase b).
Qed.

(** On the times a habit has, the collation of the concrete host goes
    with the code units: the digits keep their order, the colon
    stands at the same place in every [HH:MM], and the letters come
    after the digits in both orders. *)
Lemma weight_digit (c : ascii) :
  Browser.isDigit c = true ->
  N_of_ascii (Browser.weight c) = (N_of_ascii c + 17)%N /\ Browser.swapCaseChar c = c.
Proof.
destruct c as [[] [] [] [] [] [] [] []]; intros Hdigit;
  try discriminate Hdigit; split; reflexivity.
Qed.

Lemma compare_digits (x y : ascii) :
  Browser.isDigit x = true -> Browser.isDigit y = true ->
  Ascii.compare (Browser.weight x) (Browser.weight y) = Ascii.compare x y.
Proof.
intros Hx Hy. unfold Ascii.compare.
destruct (weight_digit x Hx) as [-> _]. destruct (weight_digit y Hy) as [-> _].
destruct (N.compare_spec (N_of_ascii x) (N_of_ascii y)) as [E | L | G].
- rewrite E. apply N.compare_refl.
- apply N.compare_lt_iff. lia.
- apply N.compare_gt_iff. lia.
Qed.

Lemma colon_of_code (c : ascii) : (Str.code c =? 58)%N = true -> c = ":"%char.
Proof.
destruct c as [[] [] [] [] [] [] [] []]; intros Hcode;
  try discriminate Hcode; reflexivity.
Qed.

Lemma collate_clocks (a b : string) :
  isClock a = true -> isClock b = true ->
  Browser.collate a b = Browser.signOf (String.compare a b).
Proof.
intros Ha Hb.
destruct a as [|a1 [|a2 [|a3 [|a4 [|a5 [|? ?]]]]]]; try discriminate Ha.
destruct b as [|b1 [|b2 [|b3 [|b4 [|b5 [|? ?]]]]]]; try discriminate Hb.
cbn [isClock] in Ha, Hb. rewrite !andb_true_iff in Ha, Hb.
destruct Ha as ((((Ha1 & Ha2) & Ha3) & Ha4) & Ha5).
destruct Hb as ((((Hb1 & Hb2) & Hb3) & Hb4) & Hb5).
apply colon_of_code in Ha3, Hb3. subst a3 b3.
unfold Browser.collate. cbn [Browser.primaryKey Browser.swapCase String.compare].
rewrite !ascii_compare_refl.
rewrite (compare_digits a1 b1 Ha1 Hb1), (compare_digits a2 b2 Ha2 Hb2),
  (compare_digits a4 b4 Ha4 Hb4), (compare_digits a5 b5 Ha5 Hb5).
rewrite (proj2 (weight_digit a1 Ha1)), (proj2 (weight_digit a2 Ha2)),
  (proj2 (weight_digit a4 Ha4)), (proj2 (weight_digit a5 Ha5)),
  (proj2 (weight_digit b1 Hb1)), (proj2 (weight_digit b2 Hb2)),
  (proj2 (weight_digit b4 Hb4)), (proj2 (weight_digit b5 Hb5)).
destruct (Ascii.compare a1 b1); try reflexivity.
destruct (Ascii.compare a2 b2); try reflexivity.
destruct (Ascii.compare a4 b4); try reflexivity.
destruct (Ascii.compare a5 b5); reflexivity.
Qed.

Lemma compare_clock_letter (t r : string) :
  isClock t = true ->
  String.compare t (String "A" r) = Lt /\
  String.compare (Browser.primaryKey t) (Browser.primaryKey (String "A" r)) = Lt.
Proof.
intros Ht. destruct t as [|c t]; [discriminate Ht|].
assert (Hc : Browser.isDigit c = true).
{ destruct t as [|a2 [|a3 [|a4 [|a5 [|? ?]]]]]; try discriminate Ht.
  cbn [isClock] in Ht. rewrite !andb_true_iff in Ht. tauto. }
clear Ht. cbn [Browser.primaryKey String.compare].
destruct c as [[] [] [] [] [] [] [] []]; try discriminate Hc; split; reflexivity.
Qed.

Lemma collate_pageTime : CollatesTimesByCodeUnits (host := Browser.host).
Proof.
intros a b Ha Hb. cbn [localeCompare Browser.host]. unfold codeUnitLe.
destruct Ha as [-> | Ha], Hb as [-> | Hb]; intros Hle Hgt.
- discriminate.
- destruct (compare_clock_letter b "nytime" Hb) as [_ Hkey].
  unfold Browser.collate in Hle.
  rewrite String.compare_antisym, Hkey in Hle. cbn in Hle. lia.
- destruct (compare_clock_letter a "nytime" Ha) as [Hraw _]. congruence.
- rewrite (collate_clocks a b Ha Hb), Hgt in Hle. cbn in Hle. lia.
Qed.

(** [renderHabits_order] on the example page: [exercise], not
    completed, is shown before [read]. *)
Lemma renderHabits_order_witness :
  habitsList (renderHabits (host := Browser.host) (Example.page "" "")) =
  [Example.exercise; Example.read] /\
  StronglySorted shownBeforeByCodeUnits
    (habitsList (renderHabits (host := Browser.host) (Example.page "" ""))) /\
  habits (renderHabits (host := Browser.host) (Example.page "" "")) =
  [Example.read; Example.exercise].
Proof.
destruct (renderHabits_order (host := Browser.host) collate_consistent (Example.page "" "")
            collate_pageTime)
  as (Hshown & _ & Hsorted & Hkept).
- apply Forall_cons; [right; reflexivity|].
  apply Forall_cons; [left; reflexivity | apply Forall_nil].
- split; [rewrite Hshown; reflexivity|]. split; [exact Hsorted|].
  rewrite Hkept. reflexivity.
Defined.

(** ** The percentage *)

Lemma percentage_empty : percentage [] = 0.
Proof. reflexivity. Qed.

Lemma percentage_half :
  percentage [Example.read; Example.exercise] = 50.
Proof. vm_compute. reflexivity. Qed.

(** The percentage depends on the two counts only. *)
Lemma percentage_counts (hs : list Habit) :
  percentage hs =
  if (List.length hs =? 0)%nat then 0
  else Math_round (number (completedCount hs) / number (List.length hs) * number 100)%float.
Proof. reflexivity. Qed.

Lemma completedCount_le (hs : list Habit) : (completedCount hs <= List.length hs)%nat.
Proof. apply filter_length_le. Qed.

(** X20: up to thirty-nine habits the percentage shown is the exact
    rounding of 100 * completed / total, a half going up. *)
Lemma percentage_exact_below_forty (hs : list Habit) :
  (List.length hs < 40)%nat ->
  percentage hs = roundedPercent (completedCount hs) (List.length hs).
Proof.
intros Hlen. pose proof (completedCount_le hs) as Hle. rewrite percentage_counts.
assert (Hall :
  forallb (fun n => forallb (fun c =>
    Z.eqb (if (n =? 0)%nat then 0
           else Math_round (number c / number n * number 100)%float)
          (roundedPercent c n)) (seq 0 (S n))) (seq 0 40) = true)
  by (vm_compute; reflexivity).
rewrite forallb_forall in Hall.
specialize (Hall (List.length hs)). rewrite in_seq in Hall.
specialize (Hall ltac:(lia)). rewrite forallb_forall in Hall.
specialize (Hall (completedCount hs)). rewrite in_seq in Hall.
specialize (Hall ltac:(lia)). now apply Z.eqb_eq in Hall.
Qed.

(** X19: up to two hundred habits the percentage shown lies between
    0 and 100 and is never more than one away from the exact
    rounding. *)
Lemma percentage_in_range_upto_200 (hs : list Habit) :
  (List.length hs <= 200)%nat ->
  0 <= percentage hs <= 100 /\
  Z.abs (percentage hs - roundedPercent (completedCount hs) (List.length hs)) <= 1.
Proof.
intros Hlen. pose proof (completedCount_le hs) as Hle. rewrite percentage_counts.
assert (Hall :
  forallb (fun n => forallb (fun c =>
    let p := if (n =? 0)%nat then 0
             else Math_round (number c / number n * number 100)%float in
    (0 <=? p)%Z && (p <=? 100)%Z && (Z.abs (p - roundedPercent c n) <=? 1)%Z)
    (seq 0 (S n))) (seq 0 201) = true)
  by (vm_compute; reflexivity).
rewrite forallb_forall in Hall.
specialize (Hall (List.length hs)). rewrite in_seq in Hall.
specialize (Hall ltac:(lia)). rewrite forallb_forall in Hall.
specialize (Hall (completedCount hs)). rewrite in_seq in Hall.
specialize (Hall ltac:(lia)). cbv zeta in Hall.
rewrite !andb_true_iff, !Z.leb_le in Hall. tauto.
Qed.

(** C7 fails on the script at forty habits of which twenty-three are
    completed: [(23 / 40) * 100] is the double 57.49999999999999, so
    [updateProgress] shows 57, while 100 * 23 / 40 = 57.5 rounds to
    58. *)
Theorem percentage_of_23_in_40 :
  completedCount Example.forty = 23%nat /\
  List.length Example.forty = 40%nat /\
  progressText (updateProgress (set_habits Example.forty (Example.page "" ""))) = 57 /\
  roundedPercent 23 40 = 58.
Proof. vm_compute. repeat split. Qed.

(** * More of the script *)

(** ** The time and the greeting on the page *)

(** X1: a time of the twenty-four-hour clock, two digits each for the
    hour and the minute, is shown on the twelve-hour clock: the hour
    from 1 to 12 without a leading zero (0 and 12 o'clock both as
    12), the minute with its two digits, AM before noon and PM from
    noon on. *)
Theorem formatTime_clock (h m : nat) :
  (h < 24)%nat -> (m < 60)%nat ->
  formatTime (clockTime h m) =
  Js.toString (Some (if (h mod 12 =? 0)%nat then 12 else Z.of_nat (h mod 12)))
  ++ ":" ++ twoDigits m ++ " " ++ (if (h <? 12)%nat then "AM" else "PM").
Proof.
intros Hh Hm.
assert (Hall :
  forallb (fun h => forallb (fun m =>
    formatTime (clockTime h m) =?
    Js.toString (Some (if (h mod 12 =? 0)%nat then 12 else Z.of_nat (h mod 12)))
    ++ ":" ++ twoDigits m ++ " " ++ (if (h <? 12)%nat then "AM" else "PM"))
    (seq 0 60)) (seq 0 24) = true)
  by (vm_compute; reflexivity).
rewrite forallb_forall in Hall. specialize (Hall h). rewrite in_seq in Hall.
specialize (Hall ltac:(lia)). rewrite forallb_forall in Hall.
specialize (Hall m). rewrite in_seq in Hall. specialize (Hall ltac:(lia)).
now apply String.eqb_eq in Hall.
Qed.

Lemma formatTime_clock_witness : formatTime "13:07" = "1:07 PM".
Proof.
change "13:07" with (clockTime 13 7).
rewrite (formatTime_clock 13 7); [reflexivity | lia | lia].
Defined.

Lemma distinctb_NoDup (l : list string) : distinctb l = true -> NoDup l.
Proof.
induction l as [|x l IH]; cbn [distinctb]; intros H; constructor;
  apply andb_true_iff in H as [Hx Hl].
- intros Hin. apply negb_true_iff in Hx.
  assert (existsb (String.eqb x) l = true); [|congruence].
  apply existsb_exists. exists x. split; [exact Hin | apply String.eqb_refl].
- now apply IH.
Qed.

Lemma NoDup_map_injective {A B : Type} (f : A -> B) (l : list A) (x y : A) :
  NoDup (map f l) -> In x l -> In y l -> f x = f y -> x = y.
Proof.
induction l as [|a l IH]; intros Hnd Hx Hy Hf; [contradiction|].
cbn [map] in Hnd. apply NoDup_cons_iff in Hnd as [Ha Hnd].
destruct Hx as [-> | Hx], Hy as [-> | Hy]; auto.
- exfalso. apply Ha. rewrite Hf. now apply in_map.
- exfalso. apply Ha. rewrite <- Hf. now apply in_map.
Qed.

(** X2: two different times of the day are never shown alike. *)
Theorem formatTime_injective (h m h' m' : nat) :
  (h < 24)%nat -> (m < 60)%nat -> (h' < 24)%nat -> (m' < 60)%nat ->
  formatTime (clockTime h m) = formatTime (clockTime h' m') ->
  h = h' /\ m = m'.
Proof.
intros Hh Hm Hh' Hm' Hsame.
assert (Hnd : NoDup (map (fun hm => formatTime (clockTime (fst hm) (snd hm)))
                         (list_prod (seq 0 24) (seq 0 60))))
  by (apply distinctb_NoDup; vm_compute; reflexivity).
assert (Heq : (h, m) = (h', m')).
{ apply (NoDup_map_injective _ _ (h, m) (h', m') Hnd);
    [apply in_prod; apply in_seq; lia | apply in_prod; apply in_seq; lia | exact Hsame]. }
now injection Heq.
Qed.

Lemma formatTime_injective_witness : (13 = 13 /\ 7 = 7)%nat.
Proof.
apply (formatTime_injective 13 7 13 7); try lia. reflexivity.
Defined.

Lemma digitsValue_noDigit (s : string) :
  noDigit s = true -> Js.digitsValue s None = None.
Proof.
destruct s as [|c r]; [reflexivity|]. cbn [noDigit Js.digitsValue].
intros H. apply andb_true_iff in H as [Hc _]. apply negb_true_iff in Hc. now rewrite Hc.
Qed.

Lemma noDigit_trimStart (s : string) : noDigit s = true -> noDigit (Str.trimStart s) = true.
Proof.
induction s as [|c r IH]; [reflexivity|]. cbn [Str.trimStart].
destruct (Str.isWhiteSpace c); [|auto]. cbn [noDigit]. intros H.
apply andb_true_iff in H as [_ Hr]. now apply IH.
Qed.

Lemma parseInt_noDigit (s : string) : noDigit s = true -> Js.parseInt s = None.
Proof.
intros H. apply noDigit_trimStart in H. unfold Js.parseInt.
destruct (Str.trimStart s) as [|c r]; [reflexivity|].
pose proof H as Hall. cbn [noDigit] in H. apply andb_true_iff in H as [_ Hr].
destruct (Str.code c =? 45)%N; [now rewrite digitsValue_noDigit|].
destruct (Str.code c =? 43)%N; [now rewrite digitsValue_noDigit|].
now rewrite digitsValue_noDigit.
Qed.

Lemma noDigit_split (sep : ascii) (s : string) :
  noDigit s = true -> Forall (fun seg => noDigit seg = true) (Js.split sep s).
Proof.
induction s as [|c r IH]; cbn [Js.split noDigit]; intros H.
- repeat constructor.
- apply andb_true_iff in H as [Hc Hr]. specialize (IH Hr).
  destruct (Ascii.eqb c sep); [constructor; [reflexivity | exact IH]|].
  destruct (Js.split sep r) as [|seg rest].
  + repeat constructor. cbn. now rewrite Hc.
  + apply Forall_cons_iff in IH as [Hseg Hrest]. constructor; [|exact Hrest].
    cbn. now rewrite Hc, Hseg.
Qed.

(** X3: a time in which there is no digit, other than the word
    Anytime, is shown as 12:NaN AM. *)
Theorem formatTime_without_digits (t : string) :
  noDigit t = true -> t <> "Anytime" -> formatTime t = "12:NaN AM".
Proof.
intros Hno Hword. unfold formatTime.
destruct (t =? "Anytime") eqn:E; [apply String.eqb_eq in E; contradiction|].
pose proof (noDigit_split ":" t Hno) as Hparts. cbv zeta.
assert (Hh : Js.parseInt (nth 0 (Js.split ":" t) EmptyString) = None).
{ apply parseInt_noDigit. destruct (Js.split ":" t) as [|seg rest]; [reflexivity|].
  now apply Forall_cons_iff in Hparts as [Hseg _]. }
assert (Hm : match nth_error (Js.split ":" t) 1 with
             | Some minutes => Js.parseInt minutes
             | None => None
             end = None).
{ destruct (nth_error (Js.split ":" t) 1) as [minutes|] eqn:Hnth; [|reflexivity].
  apply parseInt_noDigit. apply nth_error_In in Hnth.
  rewrite Forall_forall in Hparts. now apply Hparts. }
rewrite Hh, Hm. reflexivity.
Qed.

Lemma formatTime_without_digits_witness : formatTime "noon" = "12:NaN AM".
Proof.
apply (formatTime_without_digits "noon"); [reflexivity | discriminate].
Defined.

(** X4: the greeting is Good Morning before 12 o'clock, Good
    Afternoon from 12 to 16 o'clock and Good Evening from 17 o'clock
    on. *)
Theorem greeting_ranges (hour : Z) :
  (greeting hour = "Good Morning" <-> hour < 12) /\
  (greeting hour = "Good Afternoon" <-> 12 <= hour < 17) /\
  (greeting hour = "Good Evening" <-> 17 <= hour).
Proof.
unfold greeting.
destruct (12 <=? hour)%Z eqn:E12; destruct (hour <? 17)%Z eqn:E17;
  destruct (17 <=? hour)%Z eqn:E17'; cbn [andb];
  rewrite ?Z.leb_le, ?Z.leb_gt, ?Z.ltb_lt, ?Z.ltb_ge in *;
  repeat split; intros; try discriminate; try lia; try reflexivity.
Qed.

(** ** Adding, deleting and toggling, one after the other *)

Lemma completedCount_app (l1 l2 : list Habit) :
  completedCount (l1 ++ l2) = (completedCount l1 + completedCount l2)%nat.
Proof. unfold completedCount. now rewrite filter_app, length_app. Qed.

Lemma filter_twice {A : Type} (p : A -> bool) (l : list A) :
  filter p (filter p l) = filter p l.
Proof.
induction l as [|x l IH]; [reflexivity|]. cbn [filter].
destruct (p x) eqn:E; [cbn [filter]; now rewrite E, IH | exact IH].
Qed.

Lemma filter_length_split {A : Type} (p : A -> bool) (l : list A) :
  (List.length (filter p l) + List.length (filter (fun x => negb (p x)) l))%nat =
  List.length l.
Proof.
induction l as [|x l IH]; [reflexivity|]. cbn [filter].
destruct (p x); cbn [negb List.length]; lia.
Qed.

Section Composition.
Context {host : Host}.

Lemma habits_deleteHabit (today : string) (i : Z) (s : State) :
  habits (deleteHabit today true i s) = filter (fun h => negb (id h =? i)%Z) (habits s).
Proof. unfold deleteHabit. now rewrite habits_renderHabits. Qed.

Lemma takenOut_filter (i : Z) (hs : list Habit) :
  takenOut i hs (filter (fun h => negb (id h =? i)%Z) hs).
Proof.
induction hs as [|h hs IH]; [constructor|]. cbn [filter].
destruct (id h =? i)%Z eqn:E; cbn [negb].
- apply Z.eqb_eq in E. now apply takenOut_drop.
- apply Z.eqb_neq in E. now apply takenOut_keep.
Qed.

(** X5: a deletion the user confirmed takes out of the list every
    habit that has the id, however many have it, and touches nothing
    else: the other habits are all still there, each as it was and in
    the order they had.  So no habit has the id any more, the list is
    shorter by the number of habits that had it, and toggling or
    deleting that id once more changes nothing in the list. *)
Theorem deleteHabit_removes (today today' : string) (i : Z) (s : State) :
  let s' := deleteHabit today true i s in
  takenOut i (habits s) (habits s') /\
  (forall h, In h (habits s') -> id h <> i) /\
  (forall j, j <> i ->
     filter (fun h => (id h =? j)%Z) (habits s') = filter (fun h => (id h =? j)%Z) (habits s)) /\
  (List.length (habits s') + List.length (filter (fun h => (id h =? i)%Z) (habits s)))%nat =
  List.length (habits s) /\
  toggleHabit today' i s' = s' /\
  habits (deleteHabit today' true i s') = habits s'.
Proof.
intros s'. subst s'.
assert (Hgone : forall h, In h (habits (deleteHabit today true i s)) -> id h <> i).
{ intros h. rewrite habits_deleteHabit, filter_In. intros [_ Hid].
  apply negb_true_iff in Hid. now apply Z.eqb_neq. }
split; [rewrite habits_deleteHabit; apply takenOut_filter|].
split; [exact Hgone|]. split; [|split; [|split]].
- intros j Hj. rewrite habits_deleteHabit.
  induction (habits s) as [|h hs IH]; [reflexivity|]. cbn [filter].
  destruct (id h =? i)%Z eqn:Ei; cbn [negb filter].
  + apply Z.eqb_eq in Ei. destruct (id h =? j)%Z eqn:Ej; [|exact IH].
    apply Z.eqb_eq in Ej. congruence.
  + destruct (id h =? j)%Z; [now rewrite IH | exact IH].
- rewrite habits_deleteHabit.
  rewrite Nat.add_comm.
  apply (filter_length_split (fun h => (id h =? i)%Z) (habits s)).
- unfold toggleHabit. now rewrite (find_absent i _ Hgone).
- rewrite (habits_deleteHabit today' i). now apply filter_absent.
Qed.

(** X6: a habit added under an id no habit has, and then deleted by
    that id, leaves the list as it was before it was added. *)
Theorem add_then_delete (now : Z) (today today' : string) (s : State) :
  Str.trim (habitNameInput s) <> "" ->
  ~ nameTaken (Str.trim (habitNameInput s)) (habits s) ->
  (forall h, In h (habits s) -> id h <> now) ->
  habits (deleteHabit today' true now (addHabit now today s)) = habits s.
Proof.
intros Hne Hfree Hfresh.
rewrite habits_deleteHabit, (addHabit_appends now today s Hne Hfree), filter_app.
rewrite (filter_absent now (habits s) Hfresh). cbn [filter id].
rewrite Z.eqb_refl. cbn [negb]. apply app_nil_r.
Qed.

(** X7: once a name has been added, typing it again, in whatever
    letter case and with whatever blanks around it, is refused: the
    duplicate alert is raised and the list is left as it is. *)
Theorem addHabit_again_refused (now now' : Z) (today today' : string)
        (again time' : string) (s : State) :
  Str.trim (habitNameInput s) <> "" ->
  ~ nameTaken (Str.trim (habitNameInput s)) (habits s) ->
  Str.toLowerCase (Str.trim again) = Str.toLowerCase (Str.trim (habitNameInput s)) ->
  let s1 := addHabit now today s in
  let s2 := addHabit now' today' (set_inputs again time' s1) in
  s2 = alert duplicateMessage (set_inputs again time' s1) /\
  habits s2 = habits s1.
Proof.
intros Hne Hfree Hsame s1 s2.
assert (Hrun : s2 = alert duplicateMessage (set_inputs again time' s1)).
{ apply addHabit_taken; cbn [habitNameInput set_inputs habits].
  - intros Hempty. rewrite Hempty in Hsame. cbn in Hsame.
    destruct (Str.trim (habitNameInput s)); [contradiction | discriminate].
  - unfold s1. rewrite (addHabit_appends now today s Hne Hfree).
    eexists. split; [apply in_or_app; right; left; reflexivity|].
    cbn [name]. now rewrite Hsame. }
split; [exact Hrun | now rewrite Hrun].
Qed.

Lemma completedCount_middle (before after : list Habit) (x : Habit) :
  completedCount (before ++ x :: after) =
  (completedCount before + (if completed x then 1 else 0) + completedCount after)%nat.
Proof.
rewrite completedCount_app. unfold completedCount. cbn [filter].
destruct (completed x); cbn [List.length]; lia.
Qed.

Lemma completedCount_flipFound (i : Z) (hs : list Habit) (h : Habit) :
  find (fun h => (id h =? i)%Z) hs = Some h ->
  Z.of_nat (completedCount (flipFound i hs)) =
  Z.of_nat (completedCount hs) + (if completed h then -1 else 1).
Proof.
intros F. destruct (flipFound_split i hs h F) as (before & after & Hsplit & _ & Hflip).
rewrite Hflip, Hsplit, !completedCount_middle. cbn [completed setCompleted].
destruct (completed h); cbn [negb]; lia.
Qed.

(** X10: on a page whose points agree with its list, toggling a habit
    that is there moves [totalPoints] by exactly ten: up when the
    habit was not completed, down when it was. *)
Theorem toggleHabit_points (today : string) (i : Z) (s : State) (h : Habit) :
  pointsAgree s ->
  find (fun h => (id h =? i)%Z) (habits s) = Some h ->
  totalPoints (toggleHabit today i s) =
  totalPoints s + (if completed h then -10 else 10).
Proof.
intros Hagree F. unfold toggleHabit. rewrite F.
rewrite totalPoints_renderHabits, totalPoints_saveData. cbn [habits set_habits].
rewrite (completedCount_flipFound i (habits s) h F), Hagree. unfold POINTS_PER_HABIT.
destruct (completed h); lia.
Qed.

(** X21: an add that is refused keeps what the user typed and writes
    nothing to the storage entry; an add that goes through empties
    both inputs, writes the snapshot with the new habit to the entry,
    and leaves [totalPoints] where it was on a page whose points
    agreed with its list. *)
Theorem addHabit_inputs_and_storage (now : Z) (today : string) (s : State) :
  let typed := Str.trim (habitNameInput s) in
  let s' := addHabit now today s in
  (typed = "" \/ nameTaken typed (habits s) ->
   habitNameInput s' = habitNameInput s /\ habitTimeInput s' = habitTimeInput s /\
   localStorage s' = localStorage s /\ totalPoints s' = totalPoints s) /\
  (typed <> "" -> ~ nameTaken typed (habits s) ->
   habitNameInput s' = "" /\ habitTimeInput s' = "" /\
   localStorage s' = Some (JSON_stringify (dataJson today (habits s'))) /\
   habitsList s' = sortedHabits (habits s') /\
   (pointsAgree s -> totalPoints s' = totalPoints s)).
Proof.
intros typed s'. subst typed s'. split.
- intros [Hempty | Htaken].
  + now rewrite (addHabit_empty now today s Hempty).
  + destruct (String.eqb_spec (Str.trim (habitNameInput s)) "") as [Hempty | Hne].
    * now rewrite (addHabit_empty now today s Hempty).
    * now rewrite (addHabit_taken now today s Hne Htaken).
- intros Hne Hfree.
  pose proof (addHabit_appends now today s Hne Hfree) as Happ.
  unfold addHabit in *.
  destruct (Str.trim (habitNameInput s) =? "") eqn:E;
    [apply String.eqb_eq in E; contradiction|].
  destruct (existsb _ (habits s)) eqn:D;
    [apply existsb_nameTaken in D; contradiction|].
  cbv zeta in *. cbn [habitNameInput habitTimeInput set_inputs localStorage totalPoints
                      habits habitsList] in *.
  split; [reflexivity|]. split; [reflexivity|]. split; [|split].
  + rewrite localStorage_renderHabits, localStorage_saveData, habits_renderHabits.
    reflexivity.
  + rewrite habits_renderHabits. unfold renderHabits.
    rewrite habits_saveData. cbn [habits set_habits].
    destruct (habits s); reflexivity.
  + intros Hagree. rewrite totalPoints_renderHabits, totalPoints_saveData.
    cbn [habits set_habits]. rewrite completedCount_app. unfold completedCount at 2.
    cbn [filter completed List.length]. rewrite Hagree. unfold POINTS_PER_HABIT. lia.
Qed.

End Composition.

(** ** What stays true from the first visit on *)

Lemma wellNamed_added (hs : list Habit) (i : Z) (n t : string) (c : bool) :
  wellNamed hs -> n <> "" -> t <> "" -> ~ nameTaken n hs ->
  wellNamed (hs ++ [mkHabit i n t c]).
Proof.
intros [Hnd Hall] Hn Ht Hfree. split.
- rewrite map_app. apply NoDup_app; [exact Hnd | repeat constructor; intros [] |].
  intros a Ha [<- | []]. apply Hfree. apply in_map_iff in Ha as (h & Hh & Hin).
  exists h. split; [exact Hin | exact Hh].
- apply Forall_app. split; [exact Hall|]. constructor; [split; assumption | constructor].
Qed.

Lemma wellNamed_flipFound (i : Z) (hs : list Habit) :
  wellNamed hs -> wellNamed (flipFound i hs).
Proof.
intros [Hnd Hall].
assert (Hmap : map (fun h => Str.toLowerCase (name h)) (flipFound i hs) =
               map (fun h => Str.toLowerCase (name h)) hs).
{ clear. induction hs as [|h hs IH]; [reflexivity|]. cbn [flipFound].
  destruct (id h =? i)%Z; cbn [map]; [reflexivity | now rewrite IH]. }
split; [now rewrite Hmap|]. clear Hnd Hmap.
induction Hall as [|h hs Hh Hall IH]; [constructor|]. cbn [flipFound].
destruct (id h =? i)%Z; constructor; auto.
Qed.

Lemma wellNamed_filter (p : Habit -> bool) (hs : list Habit) :
  wellNamed hs -> wellNamed (filter p hs).
Proof.
intros [Hnd Hall]. split.
- induction hs as [|h hs IH]; [constructor|]. cbn [map] in Hnd.
  apply NoDup_cons_iff in Hnd as [Hh Hnd]. apply Forall_cons_iff in Hall as [_ Hall].
  cbn [filter]. destruct (p h); [|now apply IH]. cbn [map]. constructor; [|now apply IH].
  intros Hin. apply Hh. apply in_map_iff in Hin as (h' & Heq & Hin).
  apply filter_In in Hin as [Hin _]. apply in_map_iff. now exists h'.
- rewrite Forall_forall in *. intros h Hin. apply filter_In in Hin as [Hin _]. now apply Hall.
Qed.

Lemma wellNamed_reset (hs : list Habit) :
  wellNamed hs -> wellNamed (map (setCompleted false) hs).
Proof.
intros [Hnd Hall]. split.
- now rewrite map_map.
- rewrite Forall_forall in *. intros h Hin. apply in_map_iff in Hin as (h' & <- & Hin).
  exact (Hall h' Hin).
Qed.

Section FromTheFirstVisit.
Context {host : Host}.

Lemma mirrored_frame (s s' : State) :
  localStorage s' = localStorage s -> habits s' = habits s -> mirrored s -> mirrored s'.
Proof. unfold mirrored. intros -> ->. auto. Qed.

Lemma mirrored_saved (today : string) (s : State) : mirrored (renderHabits (saveData today s)).
Proof.
right. exists today.
now rewrite localStorage_renderHabits, localStorage_saveData, habits_renderHabits.
Qed.

Lemma wellNamed_addHabit (now : Z) (today : string) (s : State) :
  wellNamed (habits s) -> wellNamed (habits (addHabit now today s)).
Proof.
intros Hs.
destruct (String.eqb_spec (Str.trim (habitNameInput s)) "") as [Hempty | Hne].
- now rewrite (addHabit_empty now today s Hempty).
- destruct (existsb (fun h => Str.toLowerCase (name h) =?
                             Str.toLowerCase (Str.trim (habitNameInput s))) (habits s)) eqn:D.
  + apply existsb_nameTaken in D. now rewrite (addHabit_taken now today s Hne D).
  + assert (Hfree : ~ nameTaken (Str.trim (habitNameInput s)) (habits s)).
    { intros Htaken. apply existsb_nameTaken in Htaken. congruence. }
    rewrite (addHabit_appends now today s Hne Hfree).
    apply wellNamed_added; [exact Hs | exact Hne | | exact Hfree].
    destruct (String.eqb_spec (habitTimeInput s) ""); [discriminate | assumption].
Qed.

Lemma mirrored_addHabit (now : Z) (today : string) (s : State) :
  mirrored s -> mirrored (addHabit now today s).
Proof.
intros Hs. unfold addHabit.
destruct (Str.trim (habitNameInput s) =? ""); [exact Hs|].
destruct (existsb _ (habits s)); [exact Hs|].
eapply mirrored_frame; [| |apply (mirrored_saved today)]; reflexivity.
Qed.

Lemma invariant_step (s s' : State) :
  keepsSnapshots -> step s s' ->
  mirrored s /\ wellNamed (habits s) -> mirrored s' /\ wellNamed (habits s').
Proof.
intros Hkeeps Hstep [Hm Hw]. destruct Hstep.
- split; [exact Hm | exact Hw].
- split; [now apply mirrored_addHabit | now apply wellNamed_addHabit].
- unfold toggleHabit. destruct (find _ (habits s)); [|now split].
  split; [apply mirrored_saved|]. rewrite habits_renderHabits.
  now apply wellNamed_flipFound.
- unfold deleteHabit. destruct confirmed; [|now split].
  split; [apply mirrored_saved|]. rewrite habits_renderHabits.
  now apply wellNamed_filter.
- destruct (checkDailyReset_inv today s s' H) as [-> | ->]; [now split|]. split.
  + eapply mirrored_frame; [| |apply (mirrored_saved today)].
    * cbn [localStorage alert]. now rewrite localStorage_renderHabits.
    * cbn [habits alert]. now rewrite habits_renderHabits.
  + now apply wellNamed_reset.
- destruct Hm as [[Hnone Hempty] | [d Hslot]].
  + unfold loadData in H. rewrite Hnone in H. injection H as <-.
    split; [left; now split | exact Hw].
  + destruct (Hkeeps d (habits s)) as [Hne Hparse].
    rewrite (loadData_snapshot s _ d (habits s) Hslot Hne Hparse) in H.
    injection H as <-. split; [right; now exists d | exact Hw].
- split; [|exact Hw].
  eapply mirrored_frame; [| |apply (mirrored_saved today s)];
    [now rewrite localStorage_renderHabits | now rewrite habits_renderHabits].
- split; [|now rewrite habits_renderHabits].
  eapply mirrored_frame; [| |exact Hm];
    [apply localStorage_renderHabits | apply habits_renderHabits].
- now split.
Qed.

Lemma invariant_runs (s0 s : State) :
  keepsSnapshots -> freshInstall s0 -> runs s0 s -> mirrored s /\ wellNamed (habits s).
Proof.
intros Hkeeps [[Hhabits _] Hnone] Hruns. induction Hruns as [s | s s' s'' _ IH Hstep].
- split; [left; now split|]. rewrite Hhabits. split; constructor.
- apply (invariant_step s' s'' Hkeeps Hstep). now apply IH.
Qed.

(** X8: on a host that reads its snapshots back, from the first visit
    on and whatever is done on the page (adding, toggling, deleting,
    the daily reset, loading, saving, rendering, typing), the storage
    entry is always the snapshot of the habit list as it is at that
    moment; there is none only as long as the list is empty and
    nothing was saved. *)
Theorem storage_mirrors_habits (s0 s : State) :
  keepsSnapshots -> freshInstall s0 -> runs s0 s ->
  (localStorage s = None /\ habits s = []) \/
  exists d, localStorage s = Some (JSON_stringify (dataJson d (habits s))).
Proof. intros Hkeeps Hfresh Hruns. now apply (invariant_runs s0 s). Qed.

(** X9: on such a host, from the first visit on, no two habits of the
    list ever have the same name, letter case apart, and no habit
    has an empty name or an empty time. *)
Theorem names_stay_distinct (s0 s : State) :
  keepsSnapshots -> freshInstall s0 -> runs s0 s ->
  NoDup (map (fun h => Str.toLowerCase (name h)) (habits s)) /\
  Forall (fun h => name h <> "" /\ time h <> "") (habits s).
Proof. intros Hkeeps Hfresh Hruns. now apply (invariant_runs s0 s). Qed.

Lemma reachable_pointsAgree (s : State) : reachable s -> pointsAgree s.
Proof.
induction 1 as [s [Hhabits [Hpoints _]] | s s' _ IH Hstep].
- unfold pointsAgree. now rewrite Hhabits, Hpoints.
- now apply pointsAgree_step with (s := s).
Qed.

(** X17: in every state the page can reach, [totalPoints] is a
    multiple of ten between 0 and ten times the number of habits. *)
Theorem totalPoints_bounds (s : State) :
  reachable s ->
  0 <= totalPoints s <= 10 * Z.of_nat (List.length (habits s)) /\
  (10 | totalPoints s).
Proof.
intros Hreach. pose proof (reachable_pointsAgree s Hreach) as Hagree.
pose proof (completedCount_le (habits s)) as Hle. unfold pointsAgree in Hagree.
rewrite Hagree. split; [lia|]. exists (Z.of_nat (completedCount (habits s))). lia.
Qed.

End FromTheFirstVisit.

(** ** Loading and the reset at the edges *)

Lemma completedCount_reset (hs : list Habit) :
  completedCount (map (setCompleted false) hs) = 0%nat.
Proof. unfold completedCount. induction hs as [|h hs IH]; [reflexivity | exact IH]. Qed.

Section Edges.
Context {host : Host}.

(** X18: [loadData] only reads: when it ends normally the storage
    entry, the inputs, the cards on the page, the progress shown and
    the alerts are what they were; either nothing at all has changed
    or the list has been replaced and [totalPoints] agrees with it. *)
Theorem loadData_reads_only (s s' : State) :
  loadData s = Ok s' ->
  localStorage s' = localStorage s /\
  habitNameInput s' = habitNameInput s /\ habitTimeInput s' = habitTimeInput s /\
  habitsList s' = habitsList s /\ emptyState s' = emptyState s /\
  progressText s' = progressText s /\ alerts s' = alerts s /\
  (s' = s \/ pointsAgree s').
Proof.
intros Hrun.
destruct (loadData_inv s s' Hrun) as [[_ ->] | (txt & v & o & hs & _ & _ & _ & _ & ->)].
- repeat split; auto.
- repeat split; auto. right. apply pointsAgree_calculatePoints.
Qed.

(** X12: an entry whose text parses but has no [habits] (no such
    property, or [null], [false], [0] or the empty string under it)
    gives the empty list and no points; an entry whose text is
    [null] makes [loadData], and with it the whole
    [DOMContentLoaded] handler, throw [TypeError]. *)
Theorem loadData_without_habits (today txt : string) (v : json) (s : State) :
  localStorage s = Some txt -> txt <> "" -> JSON_parse txt = Some v ->
  (v = JNull ->
   loadData s = Throws TypeError /\ onDOMContentLoaded today s = Throws TypeError) /\
  (forall o, getProp v "habits" = Ok o -> truthy o = false ->
   exists s', loadData s = Ok s' /\ habits s' = [] /\ totalPoints s' = 0 /\
              localStorage s' = localStorage s).
Proof.
intros Hslot Hne Hparse.
assert (Hload : loadData s =
                (stored <- getProp v "habits" ;;
                 if truthy stored then
                   match stored with
                   | Some (JArr items) =>
                       match asHabits items with
                       | Some hs => Ok (calculatePoints (set_habits hs s))
                       | None => IllTyped
                       end
                   | _ => IllTyped
                   end
                 else Ok (calculatePoints (set_habits [] s)))).
{ unfold loadData. rewrite Hslot.
  destruct (txt =? "") eqn:E; [apply String.eqb_eq in E; contradiction|].
  now rewrite Hparse. }
split.
- intros ->. cbn [getProp bind] in Hload. split; [exact Hload|].
  unfold onDOMContentLoaded. now rewrite Hload.
- intros o Hprop Hfalsy. rewrite Hprop in Hload. cbn [bind] in Hload.
  rewrite Hfalsy in Hload. eexists. split; [exact Hload|]. repeat split.
Qed.

(** X13: with an entry that has no [lastVisitDate], or one that is
    not a string, the reset is made on every call, whatever the day:
    every habit is unticked, the list is saved and the alert is
    raised. *)
Theorem checkDailyReset_without_date (today txt : string) (v : json) (o : option json)
        (s : State) :
  localStorage s = Some txt -> txt <> "" -> JSON_parse txt = Some v ->
  getProp v "lastVisitDate" = Ok o -> (forall d, o <> Some (JStr d)) ->
  exists s', checkDailyReset today s = Ok s' /\
             habits s' = map (setCompleted false) (habits s) /\
             totalPoints s' = 0 /\
             localStorage s' = Some (JSON_stringify (dataJson today (habits s'))) /\
             alerts s' = (alerts s ++ [newDayMessage])%list.
Proof.
intros Hslot Hne Hparse Hprop Hnodate.
rewrite (checkDailyReset_parsed today txt v o s Hslot Hne Hparse Hprop).
assert (Hneq : strictEqString o today = false).
{ destruct o as [[| | |d| |]|]; try reflexivity. now specialize (Hnodate d). }
rewrite Hneq. eexists. split; [reflexivity|]. repeat split.
cbn [totalPoints alert]. rewrite totalPoints_saveData. cbn [habits set_habits].
now rewrite completedCount_reset.
Qed.

(** ** The [DOMContentLoaded] handler *)

(** X14: on the first visit the handler ends normally: no habit, no
    points, nothing stored, no alert, the empty-state note shown, no
    card, and 0% of progress. *)
Theorem startup_fresh (today : string) (s : State) :
  freshInstall s ->
  exists s', onDOMContentLoaded today s = Ok s' /\
             habits s' = [] /\ totalPoints s' = 0 /\ localStorage s' = None /\
             alerts s' = [] /\ emptyState s' = true /\ habitsList s' = [] /\
             progressText s' = 0.
Proof.
intros [(Hhabits & Hpoints & Halerts) Hnone].
unfold onDOMContentLoaded, loadData. rewrite Hnone. cbn [bind].
unfold checkDailyReset. rewrite Hnone. cbn [bind].
eexists. split; [reflexivity|].
unfold updateProgress, renderHabits. rewrite Hhabits. cbn.
now rewrite Hhabits, Hpoints, Hnone, Halerts.
Qed.

Lemma startup_parsed (today txt d : string) (hs : list Habit) (s0 : State) :
  localStorage s0 = Some txt -> txt <> "" -> JSON_parse txt = Some (dataJson d hs) ->
  onDOMContentLoaded today s0 =
  if d =? today
  then Ok (updateProgress (renderHabits (calculatePoints (set_habits hs s0))))
  else Ok (updateProgress (renderHabits (alert newDayMessage (saveData today
             (set_habits (map (setCompleted false) hs) s0))))).
Proof.
intros Hslot Hne Hparse. unfold onDOMContentLoaded.
rewrite (loadData_snapshot s0 txt d hs Hslot Hne Hparse). cbn [bind].
rewrite (checkDailyReset_parsed today txt (dataJson d hs) (Some (JStr d)));
  [| exact Hslot | exact Hne | exact Hparse | reflexivity].
cbn [strictEqString]. now destruct (d =? today).
Qed.

(** X15: a page opened on what [saveData] wrote on the day [d], on a
    host that reads that snapshot back, starts normally.  On the same
    day it shows the saved list, raises no alert and leaves the entry
    alone; on any other day every habit is unticked, the points are
    0, the alert is raised and the entry is the snapshot of the
    unticked list stamped with the new day.  Either way the cards are
    the list in display order and the points agree with the list. *)
Theorem startup_after_save (today d : string) (s s0 : State) :
  survives (dataJson d (habits s)) ->
  localStorage s0 = localStorage (saveData d s) ->
  exists s1,
    onDOMContentLoaded today s0 = Ok s1 /\
    (d = today ->
     habits s1 = habits s /\ alerts s1 = alerts s0 /\ localStorage s1 = localStorage s0) /\
    (d <> today ->
     habits s1 = map (setCompleted false) (habits s) /\ totalPoints s1 = 0 /\
     alerts s1 = (alerts s0 ++ [newDayMessage])%list /\
     localStorage s1 = Some (JSON_stringify (dataJson today (habits s1)))) /\
    habitsList s1 = sortedHabits (habits s1) /\
    pointsAgree s1.
Proof.
intros [Hne Hparse] Hslot. rewrite localStorage_saveData in Hslot.
rewrite (startup_parsed today _ d (habits s) s0 Hslot Hne Hparse).
assert (Hcards : forall x, habitsList (updateProgress (renderHabits x)) =
                           sortedHabits (habits (updateProgress (renderHabits x)))).
{ intros x. cbn [habitsList habits updateProgress set_progress].
  rewrite habits_renderHabits. unfold renderHabits. destruct (habits x); reflexivity. }
destruct (String.eqb_spec d today) as [-> | Hdiff].
- eexists. split; [reflexivity|]. split; [|split; [|split]].
  + intros _. cbn [habits alerts localStorage updateProgress set_progress].
    rewrite habits_renderHabits, alerts_renderHabits, localStorage_renderHabits.
    repeat split.
  + intros Hcontra. now contradiction Hcontra.
  + apply Hcards.
  + apply pointsAgree_frame with (s := calculatePoints (set_habits (habits s) s0));
      [cbn [habits updateProgress set_progress]; apply habits_renderHabits
      |cbn [totalPoints updateProgress set_progress]; apply totalPoints_renderHabits
      |apply pointsAgree_calculatePoints].
- eexists. split; [reflexivity|]. split; [|split; [|split]].
  + intros Hcontra. contradiction.
  + intros _. cbn [habits alerts localStorage totalPoints updateProgress set_progress].
    rewrite habits_renderHabits, alerts_renderHabits, localStorage_renderHabits,
      totalPoints_renderHabits.
    cbn [habits alerts localStorage totalPoints alert]. rewrite totalPoints_saveData.
    cbn [habits set_habits]. rewrite completedCount_reset. repeat split.
  + apply Hcards.
  + apply pointsAgree_frame with
      (s := saveData today (set_habits (map (setCompleted false) (habits s)) s0));
      [cbn [habits updateProgress set_progress]; now rewrite habits_renderHabits
      |cbn [totalPoints updateProgress set_progress]; now rewrite totalPoints_renderHabits
      |apply pointsAgree_saveData].
Qed.

Lemma loadData_same_storage (s s' s2 : State) :
  loadData s = Ok s' -> localStorage s2 = localStorage s ->
  exists s2', loadData s2 = Ok s2' /\ localStorage s2' = localStorage s2 /\
              alerts s2' = alerts s2.
Proof.
intros Hrun Hslot.
destruct (loadData_inv s s' Hrun)
  as [[[Hnone | Hempty] _] | (txt & v & o & hs & Htxt & Hne & Hparse & Hprop & _)].
- exists s2. unfold loadData. rewrite Hslot, Hnone. auto.
- exists s2. unfold loadData. rewrite Hslot, Hempty. auto.
- unfold loadData in *. rewrite Hslot. rewrite Htxt in *.
  destruct (txt =? ""); [eauto|]. rewrite Hparse in *. rewrite Hprop in *.
  cbn [bind] in *. destruct (truthy o); [|eauto].
  destruct o as [[| | | |items|]|]; try discriminate.
  destruct (asHabits items); [eauto | discriminate].
Qed.

Lemma checkDailyReset_quiet (today : string) (s s2 : State) :
  checkDailyReset today s = Ok s -> localStorage s2 = localStorage s ->
  checkDailyReset today s2 = Ok s2.
Proof.
unfold checkDailyReset. intros Hrun ->.
destruct (localStorage s) as [txt|]; [|reflexivity].
destruct (txt =? ""); [reflexivity|].
destruct (JSON_parse txt) as [v|]; [|discriminate].
destruct (getProp v "lastVisitDate") as [o| |]; cbn [bind] in *; try discriminate.
destruct (strictEqString o today); cbn [negb] in *; [reflexivity|].
injection Hrun as Hrun. apply (f_equal alerts) in Hrun. cbn [alerts alert] in Hrun.
apply (f_equal (@List.length string)) in Hrun. rewrite length_app in Hrun.
cbn [alerts saveData updateProgress set_progress calculatePoints set_totalPoints setItem
     set_habits List.length] in Hrun. lia.
Qed.

(** X16: the reset is made at most once a day.  When the handler has
    ended normally on some day, then on a host that reads its
    snapshots back, opening the page again that day on what was left
    in storage ends normally too, raises no alert and writes nothing
    to the entry. *)
Theorem reset_once_a_day (today : string) (s0 s1 s2 : State) :
  keepsSnapshots ->
  onDOMContentLoaded today s0 = Ok s1 ->
  localStorage s2 = localStorage s1 ->
  exists s3, onDOMContentLoaded today s2 = Ok s3 /\
             alerts s3 = alerts s2 /\ localStorage s3 = localStorage s2.
Proof.
intros Hkeeps Hfirst Hslot. unfold onDOMContentLoaded in Hfirst.
destruct (loadData s0) as [sa| |] eqn:Hload; cbn [bind] in Hfirst; try discriminate.
destruct (checkDailyReset today sa) as [sb| |] eqn:Hreset; cbn [bind] in Hfirst;
  try discriminate.
injection Hfirst as <-.
cbn [localStorage updateProgress set_progress] in Hslot.
rewrite localStorage_renderHabits in Hslot.
destruct (checkDailyReset_inv today sa sb Hreset) as [-> | ->].
- rewrite (localStorage_loadData s0 sa Hload) in Hslot.
  destruct (loadData_same_storage s0 sa s2 Hload Hslot) as (s2' & Hload2 & Hslot2 & Halerts2).
  assert (Hquiet : checkDailyReset today s2' = Ok s2').
  { apply (checkDailyReset_quiet today sa s2' Hreset).
    now rewrite Hslot2, Hslot, (localStorage_loadData s0 sa Hload). }
  unfold onDOMContentLoaded. rewrite Hload2. cbn [bind]. rewrite Hquiet. cbn [bind].
  eexists. split; [reflexivity|].
  cbn [alerts localStorage updateProgress set_progress].
  now rewrite alerts_renderHabits, localStorage_renderHabits.
- cbn [localStorage alert] in Hslot. rewrite localStorage_saveData in Hslot.
  cbn [habits set_habits] in Hslot.
  destruct (Hkeeps today (map (setCompleted false) (habits sa))) as [Hne Hparse].
  rewrite (startup_parsed today _ today _ s2 Hslot Hne Hparse), String.eqb_refl.
  eexists. split; [reflexivity|].
  cbn [alerts localStorage updateProgress set_progress].
  now rewrite alerts_renderHabits, localStorage_renderHabits.
Qed.

End Edges.

(** ** Habits the comparator does not tell apart *)

Section Stable.
Context {A : Type} (cmp : A -> A -> Z) (p : A -> bool).
Hypothesis tied : forall x y, p x = true -> p y = true -> cmp x y <= 0.

Lemma insertSorted_filter (x : A) (l : list A) :
  filter p (insertSorted cmp x l) = filter p (x :: l).
Proof.
induction l as [|y l IH]; [reflexivity|]. cbn [insertSorted].
destruct (cmp x y <=? 0)%Z eqn:E; [reflexivity|]. apply Z.leb_gt in E.
cbn [filter] in *. rewrite IH.
destruct (p x) eqn:Px, (p y) eqn:Py; try reflexivity.
specialize (tied x y Px Py). lia.
Qed.

Lemma sort_filter (l : list A) : filter p (sort cmp l) = filter p l.
Proof.
induction l as [|x l IH]; [reflexivity|]. cbn [sort].
rewrite insertSorted_filter. cbn [filter]. now rewrite IH.
Qed.

End Stable.

(** X11: provided [localeCompare] is a consistent ordering, habits
    of the same group (completed or not) with the same time are
    shown in the order they have in the list, that is, the order in
    which they were added. *)
Theorem display_order_stable {host : Host} (c : bool) (t : string) (hs : list Habit) :
  ConsistentCollation ->
  filter (sameKey c t) (sortedHabits hs) = filter (sameKey c t) hs.
Proof.
intros Hcons. apply sort_filter. intros x y Hx Hy.
unfold sameKey in *. apply andb_true_iff in Hx as [Hcx Htx], Hy as [Hcy Hty].
apply Bool.eqb_prop in Hcx, Hcy. apply String.eqb_eq in Htx, Hty.
unfold compareHabits. rewrite Hcx, Hcy, Htx, Hty, Bool.eqb_reflx.
now destruct (collation_total Hcons t t).
Qed.

(** ** The properties above on the example page *)

Lemma add_then_delete_witness :
  habits (deleteHabit (host := Browser.host) Example.tuesday true 1793600120000
            (addHabit (host := Browser.host) 1793600120000 Example.monday
               (Example.page " Run " ""))) = [Example.read; Example.exercise].
Proof.
apply (add_then_delete (host := Browser.host) 1793600120000 Example.monday Example.tuesday
         (Example.page " Run " "")).
- vm_compute. discriminate.
- intro Htaken. apply existsb_nameTaken in Htaken. vm_compute in Htaken. discriminate.
- intros h [<- | [<- | []]]; discriminate.
Defined.

Lemma addHabit_again_refused_witness :
  habits (addHabit (host := Browser.host) 1793600180000 Example.tuesday
            (set_inputs "  RUN" "08:00"
               (addHabit (host := Browser.host) 1793600120000 Example.monday
                  (Example.page " Run " "")))) =
  [Example.read; Example.exercise; mkHabit 1793600120000 "Run" "Anytime" false].
Proof.
destruct (addHabit_again_refused (host := Browser.host) 1793600120000 1793600180000
            Example.monday Example.tuesday "  RUN" "08:00" (Example.page " Run " ""))
  as [_ Hsame].
- vm_compute. discriminate.
- intro Htaken. apply existsb_nameTaken in Htaken. vm_compute in Htaken. discriminate.
- reflexivity.
- rewrite Hsame. reflexivity.
Defined.

Lemma toggleHabit_points_witness :
  totalPoints (toggleHabit (host := Browser.host) Example.monday (id Example.exercise)
                 (Example.page "" "")) = 20.
Proof.
rewrite (toggleHabit_points (host := Browser.host) Example.monday (id Example.exercise)
           (Example.page "" "") Example.exercise); reflexivity.
Defined.

Lemma storage_mirrors_habits_witness :
  mirrored (host := Browser.host)
    (toggleHabit (host := Browser.host) Example.monday 1793600000000
       (addHabit (host := Browser.host) 1793600000000 Example.monday
          (set_inputs "Read" "07:00" (opened None)))).
Proof.
unfold mirrored.
apply (storage_mirrors_habits (host := Browser.host) (opened None)).
- exact browser_survives.
- repeat split.
- eapply runs_step; [|apply step_toggle].
  eapply runs_step; [|apply step_add].
  eapply runs_step; [|apply step_input].
  apply runs_refl.
Defined.

Lemma names_stay_distinct_witness :
  wellNamed
    (habits (addHabit (host := Browser.host) 1793600060000 Example.monday
               (set_inputs "read " "09:00"
                  (addHabit (host := Browser.host) 1793600000000 Example.monday
                     (set_inputs "Read" "07:00" (opened None)))))).
Proof.
unfold wellNamed.
apply (names_stay_distinct (host := Browser.host) (opened None)).
- exact browser_survives.
- repeat split.
- eapply runs_step; [|apply step_add].
  eapply runs_step; [|apply step_input].
  eapply runs_step; [|apply step_add].
  eapply runs_step; [|apply step_input].
  apply runs_refl.
Defined.

Lemma totalPoints_bounds_witness :
  0 <= totalPoints
         (addHabit (host := Browser.host) 1793600000000 Example.monday
            (set_inputs "Read" "07:00" (opened None))) <= 10.
Proof.
destruct (totalPoints_bounds (host := Browser.host)
            (addHabit (host := Browser.host) 1793600000000 Example.monday
               (set_inputs "Read" "07:00" (opened None)))) as [Hbounds _].
- eapply reach_step; [|apply step_add].
  eapply reach_step; [|apply step_input].
  apply reach_initial. repeat split.
- exact Hbounds.
Defined.

Lemma display_order_stable_witness :
  filter (sameKey false "Anytime")
    (sortedHabits (host := Browser.host)
       [Example.exercise; Example.read; mkHabit 1793600120000 "Run" "Anytime" false]) =
  [Example.exercise; mkHabit 1793600120000 "Run" "Anytime" false].
Proof.
rewrite (display_order_stable (host := Browser.host) false "Anytime" _ collate_consistent).
reflexivity.
Defined.

Lemma loadData_reads_only_witness :
  localStorage (Example.page "" "") = localStorage (Example.page "" "") /\
  alerts (Example.page "" "") = alerts (Example.page "" "").
Proof.
destruct (loadData_reads_only (host := Browser.host) (Example.page "" "") (Example.page "" ""))
  as (Hslot & _ & _ & _ & _ & _ & Halerts & _).
- vm_compute. reflexivity.
- split; [exact Hslot | exact Halerts].
Defined.

Lemma loadData_without_habits_witness :
  exists s', loadData (host := Browser.host) (opened (Some "{}")) = Ok s' /\
             habits s' = [] /\ totalPoints s' = 0 /\
             localStorage s' = Some "{}".
Proof.
destruct (loadData_without_habits (host := Browser.host) Example.monday "{}" (JObj [])
            (opened (Some "{}"))) as [_ Hnone].
- reflexivity.
- discriminate.
- reflexivity.
- apply (Hnone None); reflexivity.
Defined.

Lemma checkDailyReset_without_date_witness :
  exists s',
    checkDailyReset (host := Browser.host) Example.monday
      (mkState [Example.read] 10 (Some "{}") "" "" 100 [Example.read] false []) = Ok s' /\
    habits s' = [setCompleted false Example.read] /\ totalPoints s' = 0.
Proof.
destruct (checkDailyReset_without_date (host := Browser.host) Example.monday "{}" (JObj [])
            None (mkState [Example.read] 10 (Some "{}") "" "" 100 [Example.read] false []))
  as (s' & Hrun & Hhabits & Hpoints & _).
- reflexivity.
- discriminate.
- reflexivity.
- reflexivity.
- discriminate.
- exists s'. repeat split; assumption.
Defined.

Lemma startup_fresh_witness :
  exists s', onDOMContentLoaded (host := Browser.host) Example.monday (opened None) = Ok s' /\
             habits s' = [] /\ emptyState s' = true.
Proof.
destruct (startup_fresh (host := Browser.host) Example.monday (opened None))
  as (s' & Hrun & Hhabits & _ & _ & _ & Hempty & _).
- repeat split.
- exists s'. repeat split; assumption.
Defined.

Lemma startup_after_save_witness :
  exists s1,
    onDOMContentLoaded (host := Browser.host) Example.tuesday
      (opened (localStorage (Example.page "" ""))) = Ok s1 /\
    habits s1 = [setCompleted false Example.read; Example.exercise] /\
    alerts s1 = [newDayMessage].
Proof.
destruct (startup_after_save (host := Browser.host) Example.tuesday Example.monday
            (Example.page "" "") (opened (localStorage (Example.page "" ""))))
  as (s1 & Hrun & _ & Hother & _).
- split; [vm_compute; discriminate | vm_compute; reflexivity].
- reflexivity.
- destruct Hother as (Hhabits & _ & Halerts & _); [discriminate|].
  exists s1. repeat split; assumption.
Defined.

Lemma reset_once_a_day_witness :
  exists s3,
    onDOMContentLoaded (host := Browser.host) Example.tuesday
      (opened (Some (Browser.stringify
                       (dataJson Example.tuesday
                          [setCompleted false Example.read; Example.exercise])))) = Ok s3 /\
    alerts s3 = [].
Proof.
destruct (reset_once_a_day (host := Browser.host) Example.tuesday
            (opened (localStorage (Example.page "" "")))
            (updateProgress (renderHabits (host := Browser.host)
               (alert newDayMessage (saveData (host := Browser.host) Example.tuesday
                  (set_habits [setCompleted false Example.read; Example.exercise]
                     (opened (localStorage (Example.page "" ""))))))))
            (opened (Some (Browser.stringify
                             (dataJson Example.tuesday
                                [setCompleted false Example.read; Example.exercise])))))
  as (s3 & Hrun & Halerts & _).
- exact browser_survives.
- vm_compute. reflexivity.
- reflexivity.
- exists s3. split; assumption.
Defined.

Lemma percentage_exact_below_forty_witness :
  percentage [Example.read; Example.exercise] = 50.
Proof.
rewrite (percentage_exact_below_forty [Example.read; Example.exercise]);
  [reflexivity | cbn; lia].
Defined.

Lemma percentage_in_range_upto_200_witness :
  0 <= percentage Example.forty <= 100.
Proof.
destruct (percentage_in_range_upto_200 Example.forty) as [Hrange _];
  [vm_compute; lia | exact Hrange].
Defined.

(** ** Deleting and the points; coming back to the page *)

Lemma completedCount_filter_split (p : Habit -> bool) (hs : list Habit) :
  completedCount hs =
  (completedCount (filter p hs) + completedCount (filter (fun h => negb (p h)) hs))%nat.
Proof.
unfold completedCount. induction hs as [|h hs IH]; [reflexivity|]. cbn [filter].
destruct (p h), (completed h) eqn:C; cbn [negb filter]; rewrite ?C; cbn [List.length]; lia.
Qed.

Lemma reset_twice (hs : list Habit) :
  map (setCompleted false) (map (setCompleted false) hs) = map (setCompleted false) hs.
Proof. rewrite map_map. reflexivity. Qed.

Section ComingBack.
Context {host : Host}.

(** X22: on a page whose points agree with its list, a deletion the
    user confirmed takes ten points off for every completed habit
    that had the id, and none for the others. *)
Theorem deleteHabit_points (today : string) (i : Z) (s : State) :
  pointsAgree s ->
  totalPoints (deleteHabit today true i s) =
  totalPoints s -
  10 * Z.of_nat (completedCount (filter (fun h => (id h =? i)%Z) (habits s))).
Proof.
intros Hagree. unfold deleteHabit.
rewrite totalPoints_renderHabits, totalPoints_saveData. cbn [habits set_habits].
rewrite Hagree, (completedCount_filter_split (fun h => (id h =? i)%Z) (habits s)).
unfold POINTS_PER_HABIT. lia.
Qed.

(** X23: nothing is lost between visits.  On a host that reads its
    snapshots back, whatever was done on the page since the first
    visit, opening the page again on what is in storage ends
    normally and gives back every habit, with its id, name and time
    and in the same order.  The completed flags depend on the date
    the entry holds: opened on that day the page has the list as it
    was, flags included, and raises no alert; opened on any other
    day it has every flag cleared and raises the new-day alert.  An
    entry is missing only while the list is empty, and then the page
    opens on the empty list. *)
Theorem reopening_keeps_habits (today : string) (s0 s : State) :
  keepsSnapshots -> freshInstall s0 -> runs s0 s ->
  exists s1,
    onDOMContentLoaded today (opened (localStorage s)) = Ok s1 /\
    map (setCompleted false) (habits s1) = map (setCompleted false) (habits s) /\
    (localStorage s = None -> habits s = [] /\ habits s1 = [] /\ alerts s1 = []) /\
    (localStorage s <> None -> exists d, storedLastVisitDate s d) /\
    (forall d, storedLastVisitDate s d ->
       (d = today -> habits s1 = habits s /\ alerts s1 = []) /\
       (d <> today ->
        habits s1 = map (setCompleted false) (habits s) /\ alerts s1 = [newDayMessage])).
Proof.
intros Hkeeps Hfresh Hruns.
destruct (invariant_runs s0 s Hkeeps Hfresh Hruns) as [[[Hnone Hempty] | [d Hslot]] _].
- rewrite Hnone, Hempty. eexists. split; [reflexivity|]. split; [reflexivity|].
  split; [intros _; repeat split|]. split; [intros Hsome; now contradiction Hsome|].
  intros d (txt & v & Hslot & _). rewrite Hnone in Hslot. discriminate.
- destruct (Hkeeps d (habits s)) as [Hne Hparse].
  assert (Hdate : storedLastVisitDate s d)
    by (eapply storedLastVisitDate_snapshot; [exact Hslot | exact Hne | exact Hparse]).
  assert (Honly : forall d', storedLastVisitDate s d' -> d' = d).
  { intros d' (txt & v & Hslot' & _ & Hparse' & Hprop').
    rewrite Hslot in Hslot'. injection Hslot' as <-.
    rewrite Hparse in Hparse'. injection Hparse' as <-.
    cbn in Hprop'. now injection Hprop' as ->. }
  rewrite Hslot.
  rewrite (startup_parsed today _ d (habits s) (opened _) eq_refl Hne Hparse).
  destruct (d =? today) eqn:E; eexists; (split; [reflexivity|]);
    cbn [habits alerts updateProgress set_progress];
    rewrite ?habits_renderHabits, ?alerts_renderHabits.
  + apply String.eqb_eq in E. subst today.
    split; [reflexivity|]. split; [intros Hnone; discriminate|].
    split; [intros _; now exists d|].
    intros d' Hd'. apply Honly in Hd'. subst d'.
    split; [intros _; split; reflexivity | intros Hdiff; now contradiction Hdiff].
  + apply String.eqb_neq in E.
    assert (Hhabits : habits (alert newDayMessage (saveData today
                        (set_habits (map (setCompleted false) (habits s))
                           (opened (Some (JSON_stringify (dataJson d (habits s)))))))) =
                      map (setCompleted false) (habits s)).
    { cbn [habits alert]. now rewrite habits_saveData. }
    assert (Halerts : alerts (alert newDayMessage (saveData today
                        (set_habits (map (setCompleted false) (habits s))
                           (opened (Some (JSON_stringify (dataJson d (habits s)))))))) =
                      [newDayMessage]).
    { reflexivity. }
    rewrite Hhabits, Halerts.
    split; [apply reset_twice|]. split; [intros Hnone; discriminate|].
    split; [intros _; now exists d|].
    intros d' Hd'. apply Honly in Hd'. subst d'.
    split; [intros Hsame; now contradiction E | intros _; split; reflexivity].
Qed.

End ComingBack.

Lemma deleteHabit_points_witness :
  totalPoints (deleteHabit (host := Browser.host) Example.monday true (id Example.read)
                 (Example.page "" "")) = 0.
Proof.
rewrite (deleteHabit_points (host := Browser.host) Example.monday (id Example.read)
           (Example.page "" "")); reflexivity.
Defined.

Lemma reopening_keeps_habits_witness :
  exists s1 s2,
    let s := toggleHabit (host := Browser.host) Example.monday 1793600000000
               (addHabit (host := Browser.host) 1793600000000 Example.monday
                  (set_inputs "Read" "07:00" (opened None))) in
    onDOMContentLoaded (host := Browser.host) Example.monday (opened (localStorage s)) =
    Ok s1 /\
    habits s1 = [mkHabit 1793600000000 "Read" "07:00" true] /\
    onDOMContentLoaded (host := Browser.host) Example.tuesday (opened (localStorage s)) =
    Ok s2 /\
    habits s2 = [mkHabit 1793600000000 "Read" "07:00" false].
Proof.
pose (s := toggleHabit (host := Browser.host) Example.monday 1793600000000
             (addHabit (host := Browser.host) 1793600000000 Example.monday
                (set_inputs "Read" "07:00" (opened None)))).
assert (Hruns : runs (host := Browser.host) (opened None) s).
{ eapply runs_step; [|apply step_toggle].
  eapply runs_step; [|apply step_add].
  eapply runs_step; [|apply step_input].
  apply runs_refl. }
assert (Hdate : storedLastVisitDate (host := Browser.host) s Example.monday).
{ eexists. eexists.
  split; [reflexivity|]. split; [vm_compute; discriminate|].
  split; [vm_compute; reflexivity | reflexivity]. }
destruct (reopening_keeps_habits (host := Browser.host) Example.monday (opened None) s)
  as (s1 & Hrun1 & _ & _ & _ & Hflags1);
  [exact browser_survives | repeat split | exact Hruns |].
destruct (reopening_keeps_habits (host := Browser.host) Example.tuesday (opened None) s)
  as (s2 & Hrun2 & _ & _ & _ & Hflags2);
  [exact browser_survives | repeat split | exact Hruns |].
destruct (Hflags1 Example.monday Hdate) as [Hsame _].
destruct (Hflags2 Example.monday Hdate) as [_ Hother].
destruct (Hsame eq_refl) as [Hhabits1 _].
destruct Hother as [Hhabits2 _]; [discriminate|].
exists s1, s2. cbv zeta. fold s.
split; [exact Hrun1|]. split; [rewrite Hhabits1; reflexivity|].
split; [exact Hrun2|]. rewrite Hhabits2. reflexivity.
Defined.
